(** * react-native-ui-lib: Colors.alpha, Card.calcImagePosition and the Tour component

    A shallow embedding of three source files:
    - [src/style/colors.js]            (the colour table and [Colors.alpha]),
    - [src/components/card/index.js]   ([Card.calcImagePosition],
      [getBlurOptions], [elevationStyle], [createStyles]),
    - [typings/components/tour/index.js] (the [Tour] component).

    A JavaScript number is a rational, [NaN] or one of the two infinities.
    Products and quotients are rounded to the nearest binary64 value, ties to
    even; signed zeros are not distinguished.  Thrown exceptions are modelled
    with a small error monad. *)

From Stdlib Require Import ZArith QArith Qround Qpower Bool List String Ascii Lia.
From Stdlib Require Import Lqa.
Import ListNotations.

Local Close Scope Q_scope.
Local Open Scope string_scope.
Set Warnings "-register-all".

(* ================================================================== *)
(** * Part I: definitions                                              *)
(* ================================================================== *)

(** ** JavaScript values used by the three files *)

Module JS.

(** A JavaScript number. *)
Inductive number : Type :=
| NaN
| Infinity
| NegInfinity
| Finite (q : Q).

Definition Qlt_bool (a b : Q) : bool := negb (Qle_bool b a).

(** The global [isNaN] on a number. *)
Definition isNaN (x : number) : bool :=
  match x with
  | NaN => true
  | _ => false
  end.

(** [x < y]: every comparison with [NaN] is false. *)
Definition lt (x y : number) : bool :=
  match x, y with
  | NaN, _ | _, NaN => false
  | Infinity, _ => false
  | _, NegInfinity => false
  | NegInfinity, _ => true
  | Finite _, Infinity => true
  | Finite a, Finite b => Qlt_bool a b
  end.

(** [x > y]. *)
Definition gt (x y : number) : bool := lt y x.

(** Sign of an infinity times a finite factor [q]. *)
Definition scale_infinity (positive : bool) (q : Q) : number :=
  match Qcompare q 0 with
  | Eq => NaN
  | Gt => if positive then Infinity else NegInfinity
  | Lt => if positive then NegInfinity else Infinity
  end.

(** *** Rounding to binary64 *)

Definition pow2 (e : Z) : Q := (2 ^ e)%Q.

(** Floor of the binary logarithm of a positive rational. *)
Definition ilog2 (x : Q) : Z :=
  let k := (Z.log2 (Qnum x) - Z.log2 (Zpos (Qden x)))%Z in
  if Qle_bool (pow2 k) x then k else (k - 1)%Z.

(** Exponent of the unit in the last place of the binary64 values around a
    positive [x]: 53 significant bits, and no finer than 2^-1074. *)
Definition ulp_exponent (x : Q) : Z := Z.max (ilog2 x - 52) (-1074).

(** The nearest integer, a tie going to the even one. *)
Definition round_half_even (s : Q) : Z :=
  let f := Qfloor s in
  match Qcompare (s - inject_Z f) (1 # 2) with
  | Lt => f
  | Gt => (f + 1)%Z
  | Eq => if Z.even f then f else (f + 1)%Z
  end.

(** The multiple of the unit in the last place nearest to a positive [x]. *)
Definition round_magnitude (x : Q) : Q :=
  let e := ulp_exponent x in
  Qred (inject_Z (round_half_even (x / pow2 e)) * pow2 e).

(** The binary64 value of the exact result [x]: round to nearest, ties to
    even, overflowing to an infinity from 2^1024 on. *)
Definition round64 (x : Q) : number :=
  match Qcompare x 0 with
  | Eq => Finite 0
  | Gt => let r := round_magnitude x in
          if Qle_bool (pow2 1024) r then Infinity else Finite r
  | Lt => let r := round_magnitude (- x) in
          if Qle_bool (pow2 1024) r then NegInfinity else Finite (- r)
  end.

(** [x * y]: the exact product, rounded. *)
Definition mul (x y : number) : number :=
  match x, y with
  | NaN, _ | _, NaN => NaN
  | Finite a, Finite b => round64 (a * b)
  | Infinity, Infinity | NegInfinity, NegInfinity => Infinity
  | Infinity, NegInfinity | NegInfinity, Infinity => NegInfinity
  | Infinity, Finite q | Finite q, Infinity => scale_infinity true q
  | NegInfinity, Finite q | Finite q, NegInfinity => scale_infinity false q
  end.

(** [x / y]: the exact quotient, rounded; a finite number over an infinity
    is 0, and a number over 0 is an infinity, or [NaN] for 0 over 0. *)
Definition div (x y : number) : number :=
  match x, y with
  | NaN, _ | _, NaN => NaN
  | Finite a, Finite b =>
      match Qcompare b 0 with
      | Eq => scale_infinity true a
      | _ => round64 (a / b)
      end
  | Finite _, _ => Finite 0
  | Infinity, Finite b =>
      match Qcompare b 0 with Lt => NegInfinity | _ => Infinity end
  | NegInfinity, Finite b =>
      match Qcompare b 0 with Lt => Infinity | _ => NegInfinity end
  | _, _ => NaN
  end.

(** The sum [x + y] of two layout offsets, taken exactly. *)
Definition add (x y : number) : number :=
  match x, y with
  | NaN, _ | _, NaN => NaN
  | Finite a, Finite b => Finite (a + b)
  | Infinity, NegInfinity | NegInfinity, Infinity => NaN
  | Infinity, _ | _, Infinity => Infinity
  | NegInfinity, _ | _, NegInfinity => NegInfinity
  end.

(** [Math.round]: the nearest integer, a tie going towards +Infinity. *)
Definition Math_round (x : number) : number :=
  match x with
  | Finite q => Finite (inject_Z (Qfloor (q + (1 # 2))))
  | other => other
  end.

(** The integer part of a number, truncated towards zero. *)
Definition truncate (q : Q) : Z := Z.quot (Qnum q) (Zpos (Qden q)).

(** [String.prototype.slice(start)]: a negative [start] counts from the
    end of the string, and is clipped at its beginning. *)
Definition slice (s : string) (start : Z) : string :=
  let len := Z.of_nat (String.length s) in
  let from := if (start <? 0)%Z then Z.max (len + start) 0
              else Z.min start len in
  substring (Z.to_nat from) (Z.to_nat (len - from)) s.

(** [ToBoolean] of a number: 0 and [NaN] are falsy. *)
Definition truthy (x : number) : bool :=
  match x with
  | NaN => false
  | Finite q => negb (Qeq_bool q 0)
  | _ => true
  end.

End JS.

(** ** The [all-your-base] package

    [BaseConvert] is an npm dependency of the library, not part of its
    sources.  Its [decToHex] writes a positive integer in base 16 with
    upper-case digits, most significant first, and gives the empty string for
    0.  [Colors.alpha] only hands it the integers from 0 to 255. *)

Module BaseConvert.

Fixpoint upper_hex (d : Hexadecimal.uint) : string :=
  match d with
  | Hexadecimal.Nil => ""
  | Hexadecimal.D0 r => String "0" (upper_hex r)
  | Hexadecimal.D1 r => String "1" (upper_hex r)
  | Hexadecimal.D2 r => String "2" (upper_hex r)
  | Hexadecimal.D3 r => String "3" (upper_hex r)
  | Hexadecimal.D4 r => String "4" (upper_hex r)
  | Hexadecimal.D5 r => String "5" (upper_hex r)
  | Hexadecimal.D6 r => String "6" (upper_hex r)
  | Hexadecimal.D7 r => String "7" (upper_hex r)
  | Hexadecimal.D8 r => String "8" (upper_hex r)
  | Hexadecimal.D9 r => String "9" (upper_hex r)
  | Hexadecimal.Da r => String "A" (upper_hex r)
  | Hexadecimal.Db r => String "B" (upper_hex r)
  | Hexadecimal.Dc r => String "C" (upper_hex r)
  | Hexadecimal.Dd r => String "D" (upper_hex r)
  | Hexadecimal.De r => String "E" (upper_hex r)
  | Hexadecimal.Df r => String "F" (upper_hex r)
  end.

Definition decToHex (dec : JS.number) : string :=
  match dec with
  | JS.Finite q =>
      match JS.truncate q with
      | Zpos p => upper_hex (Pos.to_hex_uint p)
      | _ => ""
      end
  | _ => ""
  end.

End BaseConvert.

(** ** [src/style/colors.js] *)

Module Colors.

Definition white : string := "#ffffff".
Definition black : string := "#000000".
Definition blue70 : string := "#D3EDFF".

(** [Colors.alpha = (color, opacity = 1) => ...]; [None] is an omitted
    (undefined) second argument, which takes the default. *)
Definition alpha (color : string) (opacity_arg : option JS.number) : string :=
  let opacity := match opacity_arg with
                 | Some o => o
                 | None => JS.Finite 1
                 end in
  if JS.isNaN opacity
     || JS.gt opacity (JS.Finite 1)
     || JS.lt opacity (JS.Finite 0)
  then color
  else
    let alpha := JS.Math_round (JS.mul opacity (JS.Finite 255)) in
    let alpha := BaseConvert.decToHex alpha in
    let alpha := JS.slice ("00" ++ alpha) (-2) in
    color ++ alpha.

(** The colour table of the file, in the order it is written. *)
Definition palette : list (string * string) :=
  [("dark10", "#20303C");
   ("dark20", "#43515C");
   ("dark30", "#66737C");
   ("dark40", "#858F96");
   ("dark50", "#A3ABB0");
   ("dark60", "#C2C7CB");
   ("dark70", "#E0E3E5");
   ("dark80", "#F2F4F5");
   ("blue10", "#3182C8");
   ("blue20", "#4196E0");
   ("blue30", "#459FED");
   ("blue40", "#4EB7F5");
   ("blue50", "#7FCCF7");
   ("blue60", "#B2E0FA");
   ("blue70", "#D3EDFF");
   ("blue80", "#EAF7FF");
   ("cyan10", "#00AAAF");
   ("cyan20", "#32BABC");
   ("cyan30", "#3CC7C5");
   ("cyan40", "#64D4D2");
   ("cyan50", "#8BDFDD");
   ("cyan60", "#B1E9E9");
   ("cyan70", "#D8F4F4");
   ("cyan80", "#EBF9F9");
   ("green10", "#00A65F");
   ("green20", "#32B76C");
   ("green30", "#65C888");
   ("green40", "#84D3A0");
   ("green50", "#A3DEB8");
   ("green60", "#C1E9CF");
   ("green70", "#E8F7EF");
   ("green80", "#F3FBF7");
   ("yellow10", "#E2902B");
   ("yellow20", "#FAA030");
   ("yellow30", "#FAAD4D");
   ("yellow40", "#FBBD71");
   ("yellow50", "#FCCE94");
   ("yellow60", "#FDDEB8");
   ("yellow70", "#FEEFDB");
   ("yellow80", "#FEF7ED");
   ("orange10", "#D9644A");
   ("orange20", "#E66A4E");
   ("orange30", "#F27052");
   ("orange40", "#F37E63");
   ("orange50", "#F7A997");
   ("orange60", "#FAC6BA");
   ("orange70", "#FCE2DC");
   ("orange80", "#FEF0ED");
   ("red10", "#CF262F");
   ("red20", "#EE2C38");
   ("red30", "#F2564D");
   ("red40", "#F57871");
   ("red50", "#F79A94");
   ("red60", "#FABBB8");
   ("red70", "#FCDDDB");
   ("red80", "#FEEEED");
   ("purple10", "#8B1079");
   ("purple20", "#A0138E");
   ("purple30", "#B13DAC");
   ("purple40", "#C164BD");
   ("purple50", "#D08BCD");
   ("purple60", "#E0B1DE");
   ("purple70", "#EFD8EE");
   ("purple80", "#F7EBF7");
   ("violet10", "#48217B");
   ("violet20", "#733CA6");
   ("violet30", "#733CA6");
   ("violet40", "#8F63B8");
   ("violet50", "#AB8ACA");
   ("violet60", "#C7B1DB");
   ("violet70", "#E3D8ED");
   ("violet80", "#F1EBF6");
   ("white", "#ffffff");
   ("black", "#000000")].

End Colors.

(** ** Thrown exceptions *)

Inductive exception : Type :=
| Error (message : string)
| TypeError (message : string).

Inductive result (A : Type) : Type :=
| Ok (value : A)
| Throw (e : exception).

Arguments Ok {A} value.
Arguments Throw {A} e.

Definition bind {A B : Type} (r : result A) (k : A -> result B) : result B :=
  match r with
  | Ok a => k a
  | Throw e => Throw e
  end.

Notation "x <- r ;; k" := (bind r (fun x => k))
  (at level 61, r at next level, right associativity).

(** ** The parts of React the components call

    React is a dependency of the library.  [Children.only], [Children.count]
    and [cloneElement] follow React's documented behaviour. *)

Module React.

Inductive prop_value : Type :=
| PString (s : string)
| PNumber (n : JS.number)
| PBool (b : bool)
| PCallback (name : string)
| PStrings (l : list string).

(** A React element: its component type, key, ref and remaining props. *)
Record element : Type := mkElement {
  type : string;
  key : option string;
  ref : option string;
  props : list (string * prop_value)
}.

(** A value of the [children] prop. *)
Inductive node : Type :=
| Undefined
| Null
| Boolean (b : bool)
| Text (s : string)
| Number (n : JS.number)
| Element (e : element)
| Array (items : list node).

(** The [children] prop that [createElement(type, props, ...children)]
    stores: nothing for no child, the child itself for one, the array of
    them for more. *)
Definition children_prop (supplied : list node) : node :=
  match supplied with
  | [] => Undefined
  | [child] => child
  | _ => Array supplied
  end.

(** The spec calls this error InvalidChildCount. *)
Definition InvalidChildCount : exception :=
  Error "React.Children.only expected to receive a single React element child.".

(** [React.Children.only]: the children must be one React element. *)
Definition Children_only (children : node) : result element :=
  match children with
  | Element e => Ok e
  | _ => Throw InvalidChildCount
  end.

(** Leaves below a node; every leaf counts, an array counts its items. *)
Fixpoint count_leaves (children : node) : nat :=
  match children with
  | Array items =>
      (fix count_items (l : list node) : nat :=
         match l with
         | [] => 0
         | item :: rest => count_leaves item + count_items rest
         end) items
  | _ => 1
  end.

(** [React.Children.count]: 0 for [null] and [undefined] children. *)
Definition Children_count (children : node) : nat :=
  match children with
  | Undefined | Null => 0
  | _ => count_leaves children
  end.

Fixpoint set_prop (name : string) (v : prop_value)
         (ps : list (string * prop_value)) : list (string * prop_value) :=
  match ps with
  | [] => [(name, v)]
  | (n, old) :: rest =>
      if String.eqb n name then (n, v) :: rest
      else (n, old) :: set_prop name v rest
  end.

(** The second argument of [cloneElement]. *)
Record config : Type := mkConfig {
  cfg_key : option string;
  cfg_ref : option string;
  cfg_props : list (string * prop_value)
}.

Definition no_config : config := mkConfig None None [].

(** [React.cloneElement(element, config)]: same type; key and ref replaced
    when the config has them; the config's props laid over the original
    ones. *)
Definition cloneElement (e : element) (c : config) : element :=
  {| type := type e;
     key := match cfg_key c with Some k => Some k | None => key e end;
     ref := match cfg_ref c with Some r => Some r | None => ref e end;
     props := fold_left (fun ps '(n, v) => set_prop n v ps) (cfg_props c) (props e) |}.

End React.

(** ** [src/components/card/index.js] *)

Module Card.

(** The props [calcImagePosition] reads. *)
Record Props : Type := mkProps {
  row : bool;
  children : React.node
}.

(** [calcImagePosition(childIndex)]; [position.push] appends. *)
Definition calcImagePosition (this_props : Props) (childIndex : Z) : list string :=
  let childrenCount := Z.of_nat (React.Children_count (children this_props)) in
  let position : list string := [] in
  let position :=
    if (childIndex =? 0)%Z
    then (position ++ [if row this_props then "left" else "top"])%list
    else position in
  let position :=
    if (childIndex =? childrenCount - 1)%Z
    then (position ++ [if row this_props then "right" else "bottom"])%list
    else position in
  position.

(** What [this.getThemeProps()] returns, as far as the methods below read
    it; [None] is a prop that is not given. *)
Record ThemeProps : Type := mkThemeProps {
  width : option React.prop_value;
  height : option React.prop_value;
  enableShadow : bool;
  borderRadius : option JS.number;
  elevation : option JS.number;
  blurOptions : option (list (string * React.prop_value))
}.

(** [{...o}] inside an object literal: the keys of [o] are written over the
    object built so far, in their order; spreading [undefined] adds nothing. *)
Definition spread (target : list (string * React.prop_value))
           (o : option (list (string * React.prop_value)))
  : list (string * React.prop_value) :=
  match o with
  | Some entries => fold_left (fun acc '(k, v) => React.set_prop k v acc) entries target
  | None => target
  end.

Definition getBlurOptions (themeProps : ThemeProps)
  : list (string * React.prop_value) :=
  spread [("blurType", React.PString "light");
          ("amount", React.PNumber (JS.Finite 5))]
         (blurOptions themeProps).

(** A style object whose values may be [undefined]. *)
Definition style : Type := list (string * option React.prop_value).

(** The getter [elevationStyle]; [None] is the [undefined] it returns when
    the shadow is off. *)
Definition elevationStyle (themeProps : ThemeProps) : option style :=
  if enableShadow themeProps
  then Some [("elevation",
              Some (React.PNumber
                      (match elevation themeProps with
                       | Some e => if JS.truthy e then e else JS.Finite 2
                       | None => JS.Finite 2
                       end)))]
  else None.

Record Styles : Type := mkStyles {
  container : style;
  innerContainer : style;
  blurView : style
}.

(** React Native's [StyleSheet.absoluteFillObject]. *)
Definition absoluteFillObject : style :=
  [("position", Some (React.PString "absolute"));
   ("left", Some (React.PNumber (JS.Finite 0)));
   ("right", Some (React.PNumber (JS.Finite 0)));
   ("top", Some (React.PNumber (JS.Finite 0)));
   ("bottom", Some (React.PNumber (JS.Finite 0)))].

Section WithStyleConstants.

(** [BorderRadiuses.br40], a constant of the style module. *)
Variable DEFAULT_BORDER_RADIUS : JS.number.

(** [createStyles({width, height, enableShadow, borderRadius =
    DEFAULT_BORDER_RADIUS})]; the default applies to an absent radius. *)
Definition createStyles (themeProps : ThemeProps) : Styles :=
  let borderRadius := match borderRadius themeProps with
                      | Some r => r
                      | None => DEFAULT_BORDER_RADIUS
                      end in
  {| container :=
       [("width", width themeProps);
        ("height", height themeProps);
        ("overflow", Some (React.PString "visible"));
        ("borderRadius", Some (React.PNumber borderRadius));
        ("elevation",
         Some (React.PNumber (if enableShadow themeProps
                              then JS.Finite 2 else JS.Finite 0)));
        ("backgroundColor", Some (React.PString "transparent"))];
     innerContainer :=
       [("backgroundColor", Some (React.PString Colors.white));
        ("borderRadius", Some (React.PNumber borderRadius));
        ("overflow", Some (React.PString "hidden"));
        ("flexGrow", Some (React.PNumber (JS.Finite 1)))];
     blurView := absoluteFillObject |}.

End WithStyleConstants.

End Card.

(** ** [typings/components/tour/index.js] *)

Module Tour.

Inductive style_value : Type :=
| SNumber (n : JS.number)
| SString (s : string).

(** A style object, in the order its keys are written. *)
Definition style : Type := list (string * style_value).

(** What [render] returns.  A [style] prop is a list of style objects (one
    object for a plain style, several for an array). *)
Inductive vnode : Type :=
| View (flex : bool) (styles : list style) (children : list vnode)
| Modal (visible : bool) (animationType : string) (transparent : bool)
        (children : list vnode)
| Text (styles : list style) (content : string)
| Button (link : bool) (label : string) (onPress : option string)
| Child (e : React.element)
| Nothing.

(** The imports of the file that are not among the sources at hand: the
    [rgba] helper of the style module, the typography preset and the screen
    width.  [Colors_rgba] is the helper on the colours it accepts; what it
    does with a malformed colour is not modelled. *)
Class Imports : Type := {
  Colors_rgba : string -> JS.number -> string;
  Typography_text70 : style;
  Constants_screenWidth : JS.number
}.

Record Props : Type := mkProps {
  visible : bool;
  overlayColor : string;
  overlayOpacity : JS.number;
  message : string;
  messageStyle : style;
  onClose : option string;
  children : React.node
}.

(** [Tour.defaultProps], around the props that have no default. *)
Definition defaultProps (message : string) (messageStyle : style)
           (onClose : option string) (children : React.node) : Props :=
  {| visible := false;
     overlayColor := Colors.white;
     overlayOpacity := JS.Finite (9 # 10);
     message := message;
     messageStyle := messageStyle;
     onClose := onClose;
     children := children |}.

Record TargetPosition : Type := mkTargetPosition {
  left : JS.number;
  top : JS.number;
  width : JS.number;
  height : JS.number
}.

(** [this.state]; [None] is a key that is not set. *)
Record State : Type := mkState {
  targetPosition : option TargetPosition
}.

(** The constructor: [this.state = {}]. *)
Definition constructor : State := {| targetPosition := None |}.

(** [this.setState(update)]: the keys of the update replace those of the
    state. *)
Definition setState (this_state update : State) : State :=
  {| targetPosition := match targetPosition update with
                       | Some p => Some p
                       | None => targetPosition this_state
                       end |}.

(** lodash's [_.isUndefined]. *)
Definition isUndefined {A : Type} (v : option A) : bool :=
  match v with
  | None => true
  | Some _ => false
  end.

(** [this.target.measureInWindow]: the host is handed a callback and runs
    it, or not, on the state of the moment. *)
Definition MeasureInWindow : Type :=
  (JS.number -> JS.number -> JS.number -> JS.number -> State -> State) ->
  State -> State.

Definition onTargetLayout (measureInWindow : MeasureInWindow)
           (this_state : State) : State :=
  measureInWindow
    (fun x y width height st =>
       setState st
         {| targetPosition :=
              Some {| left := x; top := y; width := width; height := height |} |})
    this_state.

Definition renderTarget (this_props : Props) : result React.element :=
  target <- React.Children_only (children this_props) ;;
  Ok (React.cloneElement target
        {| React.cfg_key := None;
           React.cfg_ref := Some "target";
           React.cfg_props := [("onLayout", React.PCallback "onTargetLayout")] |}).

Definition renderTargetClone (this_props : Props) : result React.element :=
  target <- React.Children_only (children this_props) ;;
  Ok (React.cloneElement target React.no_config).

Definition shouldShowTour (this_props : Props) (this_state : State) : bool :=
  visible this_props && negb (isUndefined (targetPosition this_state)).

Section WithImports.

Context `{Imports}.

Definition styles_message : style :=
  ("color", SString Colors.white) :: Typography_text70.

Definition styles_glowWrapper : style :=
  [("backgroundColor", SString Colors.blue70);
   ("position", SString "absolute");
   ("top", SNumber (JS.Finite (-4)));
   ("left", SNumber (JS.Finite (-4)));
   ("right", SNumber (JS.Finite (-4)));
   ("bottom", SNumber (JS.Finite (-4)));
   ("borderRadius", SNumber (JS.Finite 999))].

(** Reading [targetPosition.height] of an absent position throws. *)
Definition renderMessage (this_props : Props) (this_state : State)
  : result vnode :=
  match targetPosition this_state with
  | None => Throw (TypeError "Cannot read property 'height' of undefined")
  | Some targetPosition =>
      Ok (View false
            [[("position", SString "absolute");
              ("bottom", SNumber (height targetPosition));
              ("width", SNumber Constants_screenWidth)]]
            [Text [styles_message; messageStyle this_props]
                  (message this_props);
             Button true "Got It!" (onClose this_props)])
  end.

Definition render (this_props : Props) (this_state : State) : result vnode :=
  let shouldShowTour := shouldShowTour this_props this_state in
  target <- renderTarget this_props ;;
  let backgroundColor :=
    Colors_rgba (overlayColor this_props) (overlayOpacity this_props) in
  overlay <-
    (if shouldShowTour
     then match targetPosition this_state with
          | None => Throw (TypeError "Cannot read property 'top' of undefined")
          | Some targetPosition =>
              clone <- renderTargetClone this_props ;;
              message <- renderMessage this_props this_state ;;
              Ok (View false
                    [[("position", SString "absolute");
                      ("top", SNumber (top targetPosition));
                      ("left", SNumber (left targetPosition))]]
                    [View false [styles_glowWrapper] [];
                     Child clone;
                     message])
          end
     else Ok Nothing) ;;
  Ok (View false []
        [Child target;
         Modal shouldShowTour "fade" true
           [View true [[("backgroundColor", SString backgroundColor)]]
              [overlay]]]).

End WithImports.

End Tour.

(* ================================================================== *)
(** * Part II: specification vocabulary                                *)
(* ================================================================== *)

(** ** Colors.alpha *)

(** The opacity lies in the closed interval from 0 to 1. *)
Definition in_unit_range (o : JS.number) : Prop :=
  match o with
  | JS.Finite q => (0 <= q /\ q <= 1)%Q
  | _ => False
  end.

(** Value of one hexadecimal digit. *)
Definition hex_digit_value (c : ascii) : option Z :=
  let n := Z.of_nat (nat_of_ascii c) in
  if ((48 <=? n) && (n <=? 57))%Z then Some (n - 48)%Z
  else if ((97 <=? n) && (n <=? 102))%Z then Some (n - 87)%Z
  else if ((65 <=? n) && (n <=? 70))%Z then Some (n - 55)%Z
  else None.

(** Value of a string of hexadecimal digits, most significant first. *)
Fixpoint hex_value_from (acc : Z) (s : string) : option Z :=
  match s with
  | EmptyString => Some acc
  | String c rest =>
      match hex_digit_value c with
      | Some d => hex_value_from (16 * acc + d)%Z rest
      | None => None
      end
  end.

Definition hex_value (s : string) : option Z :=
  match s with
  | EmptyString => None
  | _ => hex_value_from 0 s
  end.

(** The binary64 product [q * 255] for [q] from 0 on. *)
Definition product255 (q : Q) : Q :=
  match Qcompare (q * 255) 0 with
  | Eq => 0%Q
  | _ => JS.round_magnitude (q * 255)
  end.

(** The alpha byte of the opacity [q]: [Math.round] of the product. *)
Definition alpha_byte (q : Q) : Z := Qfloor (product255 q + (1 # 2)).

(** The two characters [Colors.alpha] appends for a rounded alpha [r]. *)
Definition alpha_suffix (r : Z) : string :=
  JS.slice ("00" ++ BaseConvert.decToHex (JS.Finite (inject_Z r))) (-2).

(** A digit or an upper-case letter from A to F. *)
Definition is_upper_hex_digit (c : ascii) : bool :=
  let n := Z.of_nat (nat_of_ascii c) in
  ((48 <=? n) && (n <=? 57))%Z || ((65 <=? n) && (n <=? 70))%Z.

Fixpoint all_upper_hex (s : string) : bool :=
  match s with
  | EmptyString => true
  | String c rest => is_upper_hex_digit c && all_upper_hex rest
  end.

(** What is checked of the suffix for one value of [r]. *)
Definition alpha_suffix_ok (r : Z) : bool :=
  let s := alpha_suffix r in
  (String.length s =? 2)%nat
  && match hex_value s with
     | Some v => (v =? r)%Z
     | None => false
     end
  && all_upper_hex s
  && (if (r <? 16)%Z
      then match s with
           | String "0"%char _ => true
           | _ => false
           end
      else true).

(** Half a unit in the last place of the binary64 values from 128 to 256. *)
Definition half_ulp_255 : Q := 1 # (2 ^ 46).

(** A binary64 opacity whose product with 255 lies just below one half and
    rounds to one half. *)
Definition opacity_below_half_step : Q := 282578800148737 # (2 ^ 57).

(** [r] is the integer nearest to [x], a tie going to the larger one. *)
Definition rounds_to (x : Q) (r : Z) : Prop :=
  (inject_Z r - (1 # 2) <= x /\ x < inject_Z r + (1 # 2))%Q.

(** ** Card.calcImagePosition *)

(** The marker of the leading edge and of the trailing edge. *)
Definition leading_edge (row : bool) : string := if row then "left" else "top".
Definition trailing_edge (row : bool) : string := if row then "right" else "bottom".

(** A card in a row with an image, a section and an image. *)
Definition three_children_row : Card.Props :=
  Card.mkProps true
    (React.Array
       [React.Element (React.mkElement "CardImage" None None []);
        React.Element (React.mkElement "CardSection" None None []);
        React.Element (React.mkElement "CardImage" None None [])]).

(** A card in a column with one image. *)
Definition single_child_column : Card.Props :=
  Card.mkProps false
    (React.Element (React.mkElement "CardImage" None None [])).

(** ** The Tour component *)

(** The spec's BoundingBox is the stored [targetPosition]. *)
Definition BoundingBox : Type := Tour.TargetPosition.

(** The two states of the spec's state machine. *)
Inductive phase : Type :=
| Unmeasured
| Measured.

Definition phase_of (st : Tour.State) : phase :=
  match Tour.targetPosition st with
  | None => Unmeasured
  | Some _ => Measured
  end.

(** What the host does with the callback handed to [measureInWindow]. *)
Inductive host_answer : Type :=
| Delivers (box : BoundingBox)
| NoAnswer.

Definition measureInWindow_of (a : host_answer) : Tour.MeasureInWindow :=
  match a with
  | Delivers box =>
      fun callback st =>
        callback (Tour.left box) (Tour.top box) (Tour.width box) (Tour.height box) st
  | NoAnswer => fun _ st => st
  end.

(** The spec's [onLayoutMeasured(box)]: the layout hook fires and the host
    answers with [box]. *)
Definition onLayoutMeasured (box : BoundingBox) (st : Tour.State) : Tour.State :=
  Tour.onTargetLayout (measureInWindow_of (Delivers box)) st.

(** A mounted component: the props its parent gave last, and its state. *)
Record instance : Type := mkInstance {
  inst_props : Tour.Props;
  inst_state : Tour.State
}.

Inductive event : Type :=
| ReceiveProps (p : Tour.Props)
| TargetLayout (a : host_answer).

Definition mount (p : Tour.Props) : instance :=
  {| inst_props := p; inst_state := Tour.constructor |}.

Definition step (i : instance) (ev : event) : instance :=
  match ev with
  | ReceiveProps p => {| inst_props := p; inst_state := inst_state i |}
  | TargetLayout a =>
      {| inst_props := inst_props i;
         inst_state := Tour.onTargetLayout (measureInWindow_of a) (inst_state i) |}
  end.

Definition run (i : instance) (evs : list event) : instance :=
  fold_left step evs i.

(** Some measurement was delivered among the events. *)
Definition measured (evs : list event) : bool :=
  existsb (fun ev => match ev with
                     | TargetLayout (Delivers _) => true
                     | _ => false
                     end) evs.

Definition set_visible (b : bool) (p : Tour.Props) : Tour.Props :=
  {| Tour.visible := b;
     Tour.overlayColor := Tour.overlayColor p;
     Tour.overlayOpacity := Tour.overlayOpacity p;
     Tour.message := Tour.message p;
     Tour.messageStyle := Tour.messageStyle p;
     Tour.onClose := Tour.onClose p;
     Tour.children := Tour.children p |}.

(** The content shown inside the modal, when the modal is visible and has
    content. *)
Definition overlay_content (tree : Tour.vnode) : option Tour.vnode :=
  match tree with
  | Tour.View _ _ [_; Tour.Modal true _ _ [Tour.View _ _ [content]]] =>
      match content with
      | Tour.Nothing => None
      | _ => Some content
      end
  | _ => None
  end.

(** The [visible] flag of the modal in the tree. *)
Definition modal_visible (tree : Tour.vnode) : option bool :=
  match tree with
  | Tour.View _ _ [_; Tour.Modal shown _ _ _] => Some shown
  | _ => None
  end.

(** What the backdrop inside the modal holds, whether the modal is visible
    or not. *)
Definition backdrop_content (tree : Tour.vnode) : option Tour.vnode :=
  match tree with
  | Tour.View _ _ [_; Tour.Modal _ _ _ [Tour.View _ _ [content]]] => Some content
  | _ => None
  end.

Definition overlay_rendered (r : result Tour.vnode) : bool :=
  match r with
  | Ok tree => match overlay_content tree with
               | Some _ => true
               | None => false
               end
  | Throw _ => false
  end.

(** The number a list of style objects gives to a key; a later object
    overrides an earlier one. *)
Definition style_number (name : string) (styles : list Tour.style)
  : option JS.number :=
  match List.find (fun kv => String.eqb (fst kv) name) (List.rev (List.concat styles)) with
  | Some (_, Tour.SNumber n) => Some n
  | _ => None
  end.

(** Geometry of the overlay.  The wrapper is placed absolutely in the
    full-screen backdrop; the glow is placed absolutely in the wrapper, so its
    screen position is the wrapper's plus its own offsets; the clone is the
    wrapper's content and sits at the wrapper's corner. *)
Record geometry : Type := mkGeometry {
  glow_left : JS.number;
  glow_top : JS.number;
  glow_insets : list JS.number;   (* top, left, right, bottom of the glow *)
  clone_left : JS.number;
  clone_top : JS.number;
  message_bottom : JS.number
}.

Definition geometry_of (tree : Tour.vnode) : option geometry :=
  match overlay_content tree with
  | Some (Tour.View _ wrapper [Tour.View _ glow []; Tour.Child _; Tour.View _ panel _]) =>
      match style_number "left" wrapper, style_number "top" wrapper,
            style_number "top" glow, style_number "left" glow,
            style_number "right" glow, style_number "bottom" glow,
            style_number "bottom" panel with
      | Some l, Some t, Some gt, Some gl, Some gr, Some gb, Some mb =>
          Some {| glow_left := JS.add l gl;
                  glow_top := JS.add t gt;
                  glow_insets := [gt; gl; gr; gb];
                  clone_left := l;
                  clone_top := t;
                  message_bottom := mb |}
      | _, _, _, _, _, _, _ => None
      end
  | _ => None
  end.

Definition rendered_geometry `{Tour.Imports} (p : Tour.Props) (st : Tour.State)
  : option geometry :=
  match Tour.render p st with
  | Ok tree => geometry_of tree
  | Throw _ => None
  end.

(** The config [renderTarget] passes to [cloneElement]. *)
Definition target_config : React.config :=
  {| React.cfg_key := None;
     React.cfg_ref := Some "target";
     React.cfg_props := [("onLayout", React.PCallback "onTargetLayout")] |}.

(** Sample values. *)
Definition sample_imports : Tour.Imports :=
  {| Tour.Colors_rgba := fun color opacity => Colors.alpha color (Some opacity);
     Tour.Typography_text70 :=
       [("fontSize", Tour.SNumber (JS.Finite 16));
        ("lineHeight", Tour.SNumber (JS.Finite 24))];
     Tour.Constants_screenWidth := JS.Finite 375 |}.

Definition sample_target : React.element :=
  React.mkElement "Button" None None [("label", React.PString "Compose")].

Definition sample_props (visible : bool) : Tour.Props :=
  Tour.mkProps visible Colors.white (JS.Finite (9 # 10)) "Write a new message"
               [] (Some "dismiss") (React.Element sample_target).

Definition box_10_20_100_50 : BoundingBox :=
  Tour.mkTargetPosition (JS.Finite 10) (JS.Finite 20) (JS.Finite 100) (JS.Finite 50).


(** A measurement is delivered, then the parent makes the tour visible. *)
Definition measured_then_shown : list event :=
  [TargetLayout (Delivers box_10_20_100_50); ReceiveProps (sample_props true)].

(** The layout hook fires but the host never answers. *)
Definition never_answered : list event :=
  [TargetLayout NoAnswer; ReceiveProps (sample_props true)].

(** A box of the same height elsewhere on the screen. *)
Definition box_0_300_40_50 : BoundingBox :=
  Tour.mkTargetPosition (JS.Finite 0) (JS.Finite 300) (JS.Finite 40) (JS.Finite 50).

(** The same tour given no child, and given two. *)
Definition sample_props_of (supplied : list React.node) : Tour.Props :=
  Tour.mkProps true Colors.white (JS.Finite (9 # 10)) "Write a new message"
               [] (Some "dismiss") (React.children_prop supplied).

(** ** Further vocabulary *)

(** Reading the key [name] of an object. *)
Definition lookup_prop {V : Type} (name : string) (o : list (string * V))
  : option V :=
  match List.find (fun kv => String.eqb (fst kv) name) o with
  | Some (_, v) => Some v
  | None => None
  end.

(** The keys of an object. *)
Definition keys {V : Type} (o : list (string * V)) : list string :=
  List.map fst o.

Fixpoint all_hex_digits (s : string) : bool :=
  match s with
  | EmptyString => true
  | String c rest =>
      match hex_digit_value c with
      | Some _ => all_hex_digits rest
      | None => false
      end
  end.

(** A hash sign followed by [digits] hexadecimal digits. *)
Definition is_hex_color (digits : nat) (s : string) : bool :=
  match s with
  | String "#"%char rest =>
      (String.length rest =? digits)%nat && all_hex_digits rest
  | _ => false
  end.

(** The box of the last measurement delivered among the events. *)
Fixpoint last_delivered (evs : list event) : option BoundingBox :=
  match evs with
  | [] => None
  | ev :: rest =>
      match last_delivered rest with
      | Some box => Some box
      | None => match ev with
                | TargetLayout (Delivers box) => Some box
                | _ => None
                end
      end
  end.

(** The layout hook [renderTarget] installs. *)
Definition layout_hook : React.prop_value := React.PCallback "onTargetLayout".

(** A child that brings its own layout handler, key and ref. *)
Definition sample_child_with_handler : React.element :=
  React.mkElement "Avatar" (Some "me") (Some "avatarRef")
    [("size", React.PNumber (JS.Finite 40));
     ("onLayout", React.PCallback "ownHandler");
     ("label", React.PString "AB")].

(** Theme props of a card that asks for elevation 0 and its own blur
    amount. *)
Definition sample_theme_props : Card.ThemeProps :=
  Card.mkThemeProps (Some (React.PNumber (JS.Finite 200))) None true
    (Some (JS.Finite 0)) (Some (JS.Finite 0))
    (Some [("amount", React.PNumber (JS.Finite 12));
           ("blurRadius", React.PNumber (JS.Finite 3))]).

(* ================================================================== *)
(** * Part III: theorems                                               *)
(* ================================================================== *)

(** ** Colors.alpha *)

Lemma alpha_suffix_ok_byte (r : Z) :
  (0 <= r <= 255)%Z -> alpha_suffix_ok r = true.
Proof.
  intros Hr.
  assert (Hall : forallb (fun n => alpha_suffix_ok (Z.of_nat n)) (seq 0 256) = true)
    by (vm_compute; reflexivity).
  rewrite forallb_forall in Hall.
  specialize (Hall (Z.to_nat r)).
  rewrite Z2Nat.id in Hall by lia.
  apply Hall, in_seq. lia.
Qed.

Lemma truncate_inject_Z (z : Z) : JS.truncate (inject_Z z) = z.
Proof. unfold JS.truncate; simpl. apply Z.quot_1_r. Qed.

(** *** Rounding to binary64 *)

Lemma pow2_pos e : (0 < JS.pow2 e)%Q.
Proof. apply Qpower_0_lt. reflexivity. Qed.

Lemma pow2_add a b : (JS.pow2 (a + b) == JS.pow2 a * JS.pow2 b)%Q.
Proof. apply Qpower_plus. discriminate. Qed.

Lemma pow2_le a b : (a <= b)%Z -> (JS.pow2 a <= JS.pow2 b)%Q.
Proof. intros H. apply Qpower_le_compat_l; [exact H | discriminate]. Qed.

Lemma pow2_lt_inv a b : (JS.pow2 a < JS.pow2 b)%Q -> (a < b)%Z.
Proof. intros H. apply (Qpower_lt_compat_l_inv 2); [exact H | reflexivity]. Qed.

Lemma pow2_Z k : (0 <= k)%Z -> (inject_Z (2 ^ k) == JS.pow2 k)%Q.
Proof. intros H. apply (Zpower_Qpower 2 k H). Qed.

Lemma Z_between_pow2 n :
  (0 < n)%Z -> (JS.pow2 (Z.log2 n) <= inject_Z n /\ inject_Z n < JS.pow2 (Z.log2 n + 1))%Q.
Proof.
  intros Hn. destruct (Z.log2_spec n Hn) as [Hlo Hhi].
  pose proof (Z.log2_nonneg n) as H0.
  rewrite <- !pow2_Z by lia. split.
  - rewrite <- Zle_Qle. exact Hlo.
  - rewrite <- Zlt_Qlt. unfold Z.succ in Hhi. exact Hhi.
Qed.

Lemma ilog2_spec x :
  (0 < x)%Q -> (JS.pow2 (JS.ilog2 x) <= x /\ x < JS.pow2 (JS.ilog2 x + 1))%Q.
Proof.
  intros Hx. destruct x as [n d].
  assert (Hn : (0 < n)%Z) by (unfold Qlt in Hx; simpl in Hx; lia).
  destruct (Z_between_pow2 n Hn) as [Hnlo Hnhi].
  destruct (Z_between_pow2 (Zpos d) eq_refl) as [Hdlo Hdhi].
  set (a := Z.log2 n) in *. set (b := Z.log2 (Zpos d)) in *.
  assert (Hxd : ((n # d) * inject_Z (Zpos d) == inject_Z n)%Q).
  { unfold Qeq, Qmult, inject_Z; simpl. lia. }
  assert (Hdpos : (0 < inject_Z (Zpos d))%Q) by reflexivity.
  assert (Hlow : (JS.pow2 (a - b - 1) <= n # d)%Q).
  { apply (Qmult_le_r _ _ _ Hdpos). rewrite Hxd.
    apply Qle_trans with (JS.pow2 (a - b - 1) * JS.pow2 (b + 1))%Q.
    - apply Qmult_le_l; [apply pow2_pos | apply Qlt_le_weak, Hdhi].
    - rewrite <- pow2_add. replace (a - b - 1 + (b + 1))%Z with a by ring.
      exact Hnlo. }
  assert (Hhigh : (n # d < JS.pow2 (a - b + 1))%Q).
  { apply (Qmult_lt_r _ _ _ Hdpos). rewrite Hxd.
    apply Qlt_le_trans with (JS.pow2 (a - b + 1) * JS.pow2 b)%Q.
    - rewrite <- pow2_add. replace (a - b + 1 + b)%Z with (a + 1)%Z by ring.
      exact Hnhi.
    - apply Qmult_le_l; [apply pow2_pos | exact Hdlo]. }
  unfold JS.ilog2. cbn [Qnum Qden]. fold a b.
  destruct (Qle_bool (JS.pow2 (a - b)) (n # d)) eqn:Htest.
  - split; [apply Qle_bool_iff, Htest | exact Hhigh].
  - split; [exact Hlow |].
    replace (a - b - 1 + 1)%Z with (a - b)%Z by ring.
    apply Qnot_le_lt. intros Hle. apply Qle_bool_iff in Hle. congruence.
Qed.

Lemma ilog2_mono x y : (0 < x)%Q -> (x <= y)%Q -> (JS.ilog2 x <= JS.ilog2 y)%Z.
Proof.
  intros Hx Hxy.
  assert (Hy : (0 < y)%Q) by (apply Qlt_le_trans with x; assumption).
  destruct (ilog2_spec x Hx) as [Hlo _]. destruct (ilog2_spec y Hy) as [_ Hhi].
  assert (H : (JS.pow2 (JS.ilog2 x) < JS.pow2 (JS.ilog2 y + 1))%Q).
  { apply Qle_lt_trans with x; [exact Hlo |].
    apply Qle_lt_trans with y; assumption. }
  apply pow2_lt_inv in H. lia.
Qed.

Lemma round_half_even_bounds s :
  (inject_Z (JS.round_half_even s) - (1 # 2) <= s
   /\ s <= inject_Z (JS.round_half_even s) + (1 # 2))%Q.
Proof.
  unfold JS.round_half_even.
  pose proof (Qfloor_le s) as Hlo. pose proof (Qlt_floor s) as Hhi.
  rewrite inject_Z_plus in Hhi. change (inject_Z 1) with 1%Q in Hhi.
  destruct (Qcompare (s - inject_Z (Qfloor s)) (1 # 2)) eqn:Hc.
  - apply Qeq_alt in Hc.
    destruct (Z.even (Qfloor s)); [| rewrite inject_Z_plus; change (inject_Z 1) with 1%Q];
      split; lra.
  - apply Qlt_alt in Hc. split; lra.
  - apply Qgt_alt in Hc. rewrite inject_Z_plus. change (inject_Z 1) with 1%Q.
    split; lra.
Qed.

Lemma round_half_even_comp s t : (s == t)%Q -> JS.round_half_even s = JS.round_half_even t.
Proof.
  intros Heq. unfold JS.round_half_even.
  rewrite (Qfloor_comp _ _ Heq).
  assert (Hc : Qcompare (s - inject_Z (Qfloor t)) (1 # 2)
               = Qcompare (t - inject_Z (Qfloor t)) (1 # 2)).
  { apply Qcompare_comp; [rewrite Heq |]; reflexivity. }
  rewrite Hc. reflexivity.
Qed.

Lemma round_half_even_mono s t :
  (s <= t)%Q -> (JS.round_half_even s <= JS.round_half_even t)%Z.
Proof.
  intros Hst.
  destruct (Z_le_gt_dec (JS.round_half_even s) (JS.round_half_even t)) as [H | H];
    [exact H |].
  destruct (round_half_even_bounds s) as [Hs _].
  destruct (round_half_even_bounds t) as [_ Ht].
  assert (Hge : (inject_Z (JS.round_half_even t) + 1 <= inject_Z (JS.round_half_even s))%Q).
  { change 1%Q with (inject_Z 1). rewrite <- inject_Z_plus, <- Zle_Qle. lia. }
  assert (Heq : (s == t)%Q) by (apply Qle_antisym; lra).
  rewrite (round_half_even_comp s t Heq). lia.
Qed.

Lemma round_half_even_Z z : JS.round_half_even (inject_Z z) = z.
Proof.
  unfold JS.round_half_even. rewrite Qfloor_Z.
  assert (Hc : Qcompare (inject_Z z - inject_Z z) (1 # 2) = Lt).
  { apply (proj1 (Qlt_alt _ _)). lra. }
  rewrite Hc. reflexivity.
Qed.

Lemma Qdiv_pow2 x e : (x / JS.pow2 e * JS.pow2 e == x)%Q.
Proof.
  rewrite Qmult_comm. apply Qmult_div_r. intros H0. pose proof (pow2_pos e) as Hp. rewrite H0 in Hp.
  discriminate.
Qed.

(** Error of the rounding: at most half a unit in the last place. *)
Lemma round_magnitude_error x :
  (x - JS.pow2 (JS.ulp_exponent x) * (1 # 2) <= JS.round_magnitude x
   /\ JS.round_magnitude x <= x + JS.pow2 (JS.ulp_exponent x) * (1 # 2))%Q.
Proof.
  unfold JS.round_magnitude. rewrite Qred_correct.
  set (e := JS.ulp_exponent x). pose proof (pow2_pos e) as Hp.
  destruct (round_half_even_bounds (x / JS.pow2 e)) as [Hlo Hhi].
  set (m := inject_Z (JS.round_half_even (x / JS.pow2 e))) in *.
  assert (H1 : ((m - (1 # 2)) * JS.pow2 e <= x / JS.pow2 e * JS.pow2 e)%Q)
    by (apply Qmult_le_compat_r; [exact Hlo | apply Qlt_le_weak, Hp]).
  assert (H2 : (x / JS.pow2 e * JS.pow2 e <= (m + (1 # 2)) * JS.pow2 e)%Q)
    by (apply Qmult_le_compat_r; [exact Hhi | apply Qlt_le_weak, Hp]).
  rewrite Qdiv_pow2 in H1, H2. split; lra.
Qed.

Lemma round_magnitude_nonneg x : (0 <= x)%Q -> (0 <= JS.round_magnitude x)%Q.
Proof.
  intros Hx. unfold JS.round_magnitude. rewrite Qred_correct.
  pose proof (pow2_pos (JS.ulp_exponent x)) as Hp.
  apply Qmult_le_0_compat; [| apply Qlt_le_weak, Hp].
  change 0%Q with (inject_Z 0). rewrite <- Zle_Qle.
  rewrite <- (round_half_even_Z 0). apply round_half_even_mono.
  apply Qle_shift_div_l; [exact Hp |]. change (inject_Z 0) with 0%Q. lra.
Qed.

Lemma ulp_exponent_mono x y :
  (0 < x)%Q -> (x <= y)%Q -> (JS.ulp_exponent x <= JS.ulp_exponent y)%Z.
Proof.
  intros Hx Hxy. unfold JS.ulp_exponent.
  pose proof (ilog2_mono x y Hx Hxy). lia.
Qed.

(** Rounding to the binary64 grid is monotone. *)
Lemma round_magnitude_mono x y :
  (0 < x)%Q -> (x <= y)%Q -> (JS.round_magnitude x <= JS.round_magnitude y)%Q.
Proof.
  intros Hx Hxy.
  assert (Hy : (0 < y)%Q) by (apply Qlt_le_trans with x; assumption).
  pose proof (ulp_exponent_mono x y Hx Hxy) as He.
  unfold JS.round_magnitude. rewrite !Qred_correct.
  set (ex := JS.ulp_exponent x) in *. set (ey := JS.ulp_exponent y) in *.
  pose proof (pow2_pos ex) as Hpx. pose proof (pow2_pos ey) as Hpy.
  destruct (Z.eq_dec ex ey) as [Heq | Hne].
  - rewrite <- Heq. apply Qmult_le_compat_r; [| apply Qlt_le_weak, Hpx].
    rewrite <- Zle_Qle. apply round_half_even_mono.
    apply Qmult_le_compat_r; [exact Hxy |].
    apply Qlt_le_weak, Qinv_lt_0_compat, Hpx.
  - assert (Hlt : (ex < ey)%Z) by lia.
    set (B := JS.pow2 (ey + 52)).
    (* y is at least B, x is below B *)
    assert (HyB : (B <= y)%Q).
    { destruct (ilog2_spec y Hy) as [Hlo _].
      assert (Heyv : ey = (JS.ilog2 y - 52)%Z) by (unfold ey, JS.ulp_exponent in *; lia).
      unfold B. replace (ey + 52)%Z with (JS.ilog2 y) by lia. exact Hlo. }
    assert (HxB : (x <= B)%Q).
    { destruct (ilog2_spec x Hx) as [_ Hhi].
      apply Qlt_le_weak, Qlt_le_trans with (JS.pow2 (JS.ilog2 x + 1)); [exact Hhi |].
      apply pow2_le. unfold ex, JS.ulp_exponent in *. lia. }
    apply Qle_trans with B.
    + (* round x <= B *)
      assert (HK : (B == inject_Z (2 ^ (ey + 52 - ex)) * JS.pow2 ex)%Q).
      { rewrite pow2_Z by lia. rewrite <- pow2_add. unfold B.
        replace (ey + 52 - ex + ex)%Z with (ey + 52)%Z by ring. reflexivity. }
      rewrite HK. apply Qmult_le_compat_r; [| apply Qlt_le_weak, Hpx].
      rewrite <- Zle_Qle.
      rewrite <- (round_half_even_Z (2 ^ (ey + 52 - ex))).
      apply round_half_even_mono.
      apply Qle_shift_div_r; [exact Hpx |]. rewrite <- HK. exact HxB.
    + (* B <= round y *)
      assert (HK : (B == inject_Z (2 ^ 52) * JS.pow2 ey)%Q).
      { rewrite pow2_Z by lia. rewrite <- pow2_add. unfold B.
        replace (52 + ey)%Z with (ey + 52)%Z by ring. reflexivity. }
      rewrite HK. apply Qmult_le_compat_r; [| apply Qlt_le_weak, Hpy].
      rewrite <- Zle_Qle.
      rewrite <- (round_half_even_Z (2 ^ 52)) at 1.
      apply round_half_even_mono.
      apply Qle_shift_div_l; [exact Hpy |]. rewrite <- HK. exact HyB.
Qed.

(** *** The product with 255 *)

Lemma round_magnitude_255 : JS.round_magnitude 255 = 255%Q.
Proof. vm_compute. reflexivity. Qed.

Lemma product_nonneg (q : Q) : (0 <= q)%Q -> (0 <= q * 255)%Q.
Proof. intros H. apply Qmult_le_0_compat; [exact H | discriminate]. Qed.

Lemma product_le_255 (q : Q) : (q <= 1)%Q -> (q * 255 <= 255)%Q.
Proof.
  intros H. setoid_replace 255%Q with (1 * 255)%Q at 2 by ring.
  apply Qmult_le_compat_r; [exact H | discriminate].
Qed.

Lemma product255_bounds (q : Q) :
  (0 <= q)%Q -> (q <= 1)%Q -> (0 <= product255 q /\ product255 q <= 255)%Q.
Proof.
  intros H0 H1. unfold product255.
  pose proof (product_nonneg q H0) as Hp. pose proof (product_le_255 q H1) as Hq.
  destruct (Qcompare (q * 255) 0) eqn:Hc.
  - split; discriminate.
  - apply Qlt_alt in Hc. exfalso. exact (Qlt_not_le _ _ Hc Hp).
  - apply Qgt_alt in Hc. split.
    + apply round_magnitude_nonneg, Hp.
    + rewrite <- round_magnitude_255. apply round_magnitude_mono; assumption.
Qed.

(** The product differs from the exact one by at most half a unit in the
    last place. *)
Lemma product255_error (q : Q) :
  (0 <= q)%Q -> (q <= 1)%Q ->
  (q * 255 - half_ulp_255 <= product255 q
   /\ product255 q <= q * 255 + half_ulp_255)%Q.
Proof.
  intros H0 H1. unfold product255.
  pose proof (product_nonneg q H0) as Hp. pose proof (product_le_255 q H1) as Hq.
  assert (Hhalf : (0 <= half_ulp_255)%Q) by discriminate.
  destruct (Qcompare (q * 255) 0) eqn:Hc.
  - apply Qeq_alt in Hc. split; lra.
  - apply Qlt_alt in Hc. exfalso. exact (Qlt_not_le _ _ Hc Hp).
  - apply Qgt_alt in Hc.
    destruct (round_magnitude_error (q * 255)) as [Hlo Hhi].
    assert (He : (JS.ulp_exponent (q * 255) <= -45)%Z).
    { pose proof (ilog2_mono (q * 255) 255 Hc Hq) as Hl.
      change (JS.ilog2 255) with 7%Z in Hl. unfold JS.ulp_exponent. lia. }
    apply pow2_le in He.
    assert (H45 : (JS.pow2 (-45) * (1 # 2) == half_ulp_255)%Q) by reflexivity.
    split; lra.
Qed.

Lemma product255_mono (q1 q2 : Q) :
  (0 <= q1)%Q -> (q1 <= q2)%Q -> (q2 <= 1)%Q ->
  (product255 q1 <= product255 q2)%Q.
Proof.
  intros H0 H12 H1.
  assert (H1' : (q1 <= 1)%Q) by (apply Qle_trans with q2; assumption).
  assert (H0' : (0 <= q2)%Q) by (apply Qle_trans with q1; assumption).
  destruct (product255_bounds q2 H0' H1) as [Hnn _].
  pose proof (product_nonneg q1 H0) as Hp1.
  assert (Hle : (q1 * 255 <= q2 * 255)%Q)
    by (apply Qmult_le_compat_r; [exact H12 | discriminate]).
  unfold product255 in *.
  destruct (Qcompare (q1 * 255) 0) eqn:Hc1.
  - exact Hnn.
  - apply Qlt_alt in Hc1. exfalso. exact (Qlt_not_le _ _ Hc1 Hp1).
  - apply Qgt_alt in Hc1.
    assert (Hc2 : Qcompare (q2 * 255) 0 = Gt).
    { apply (proj1 (Qgt_alt _ _)). apply Qlt_le_trans with (q1 * 255)%Q; assumption. }
    rewrite Hc2. apply round_magnitude_mono; assumption.
Qed.

(** The product the code computes. *)
Lemma mul_255 (q : Q) :
  (0 <= q)%Q -> (q <= 1)%Q ->
  JS.mul (JS.Finite q) (JS.Finite 255) = JS.Finite (product255 q).
Proof.
  intros H0 H1. destruct (product255_bounds q H0 H1) as [_ Hhi].
  pose proof (product_nonneg q H0) as Hp.
  unfold product255 in *. cbn [JS.mul]. unfold JS.round64.
  destruct (Qcompare (q * 255) 0) eqn:Hc.
  - reflexivity.
  - apply Qlt_alt in Hc. exfalso. exact (Qlt_not_le _ _ Hc Hp).
  - destruct (Qle_bool (JS.pow2 1024) (JS.round_magnitude (q * 255))) eqn:Hover;
      [| reflexivity].
    apply Qle_bool_iff in Hover. exfalso.
    assert (Hbig : (255 < JS.pow2 1024)%Q) by (vm_compute; reflexivity).
    lra.
Qed.

(** The alpha byte of an opacity between 0 and 1 is a byte. *)
Lemma rounded_alpha_byte (q : Q) :
  (0 <= q)%Q -> (q <= 1)%Q -> (0 <= alpha_byte q <= 255)%Z.
Proof.
  intros H0 H1. destruct (product255_bounds q H0 H1) as [Hlo Hhi].
  unfold alpha_byte. split.
  - change 0%Z with (Qfloor 0). apply Qfloor_resp_le. lra.
  - change 255%Z with (Qfloor (255 + (1 # 2))). apply Qfloor_resp_le. lra.
Qed.

Lemma alpha_byte_mono (q1 q2 : Q) :
  (0 <= q1)%Q -> (q1 <= q2)%Q -> (q2 <= 1)%Q ->
  (alpha_byte q1 <= alpha_byte q2)%Z.
Proof.
  intros H0 H12 H1. unfold alpha_byte. apply Qfloor_resp_le.
  pose proof (product255_mono q1 q2 H0 H12 H1). lra.
Qed.

Lemma alpha_guard_in_range (q : Q) :
  (0 <= q)%Q -> (q <= 1)%Q ->
  JS.isNaN (JS.Finite q) || JS.gt (JS.Finite q) (JS.Finite 1)
    || JS.lt (JS.Finite q) (JS.Finite 0) = false.
Proof.
  intros H0 H1. unfold JS.gt, JS.lt, JS.Qlt_bool; simpl.
  apply Qle_bool_iff in H0, H1. rewrite H0, H1. reflexivity.
Qed.

Lemma alpha_guard_out_of_range (o : JS.number) :
  ~ in_unit_range o ->
  JS.isNaN o || JS.gt o (JS.Finite 1) || JS.lt o (JS.Finite 0) = true.
Proof.
  intros Hout. destruct o as [| | | q]; try reflexivity.
  unfold JS.gt, JS.lt, JS.Qlt_bool; simpl.
  destruct (Qle_bool q 1) eqn:H1; [| reflexivity].
  destruct (Qle_bool 0 q) eqn:H0; [| reflexivity].
  exfalso. apply Hout. simpl. split; apply Qle_bool_iff; assumption.
Qed.

(** In range, the result is the colour followed by [alpha_suffix]. *)
Lemma alpha_in_range (c : string) (q : Q) :
  (0 <= q)%Q -> (q <= 1)%Q ->
  Colors.alpha c (Some (JS.Finite q)) = c ++ alpha_suffix (alpha_byte q).
Proof.
  intros H0 H1. unfold Colors.alpha.
  rewrite (alpha_guard_in_range q H0 H1), (mul_255 q H0 H1).
  reflexivity.
Qed.

(** With the opacity omitted, the default 1 gives the byte 255. *)
Lemma alpha_default (c : string) : Colors.alpha c None = c ++ "FF".
Proof.
  change (Colors.alpha c None) with (Colors.alpha c (Some (JS.Finite 1))).
  rewrite alpha_in_range by discriminate.
  apply f_equal. vm_compute. reflexivity.
Qed.

Lemma Qfloor_half_rounds_to (x : Q) : rounds_to x (Qfloor (x + (1 # 2))).
Proof.
  unfold rounds_to.
  pose proof (Qfloor_le (x + (1 # 2))) as Hle.
  pose proof (Qlt_floor (x + (1 # 2))) as Hlt.
  rewrite inject_Z_plus in Hlt.
  change (inject_Z 1) with 1%Q in Hlt.
  split; lra.
Qed.

(** C7. An opacity outside the interval from 0 to 1 (NaN, an infinity, a
    negative value, a value above 1) makes [Colors.alpha] return the colour
    unchanged; and for every opacity argument, given or omitted, the call
    returns a string: the colour itself or the colour with two characters
    appended.  The embedding has no failing path. *)
Theorem alpha_outside_unit_range_returns_color (c : string) :
  (forall o, ~ in_unit_range o -> Colors.alpha c (Some o) = c)
  /\ (forall oa, Colors.alpha c oa = c
                 \/ exists s, String.length s = 2%nat /\ Colors.alpha c oa = c ++ s).
Proof.
  assert (Hout : forall o, ~ in_unit_range o -> Colors.alpha c (Some o) = c).
  { intros o Ho. unfold Colors.alpha.
    rewrite (alpha_guard_out_of_range o Ho). reflexivity. }
  assert (Hin : forall q, (0 <= q)%Q -> (q <= 1)%Q ->
                exists s, String.length s = 2%nat
                          /\ Colors.alpha c (Some (JS.Finite q)) = c ++ s).
  { intros q H0 H1. exists (alpha_suffix (alpha_byte q)). split.
    - pose proof (alpha_suffix_ok_byte _ (rounded_alpha_byte q H0 H1)) as Hok.
      unfold alpha_suffix_ok in Hok.
      repeat (apply andb_prop in Hok as [Hok _]).
      apply Nat.eqb_eq. exact Hok.
    - apply alpha_in_range; assumption. }
  split; [exact Hout |].
  intros [o |].
  - destruct o as [| | | q];
      try (left; apply Hout; simpl; tauto).
    destruct (Qlt_le_dec q 0) as [Hneg | H0].
    { left. apply Hout. simpl. intros [H _]. apply (Qlt_not_le _ _ Hneg H). }
    destruct (Qlt_le_dec 1 q) as [Hbig | H1].
    { left. apply Hout. simpl. intros [_ H]. apply (Qlt_not_le _ _ Hbig H). }
    right. apply Hin; assumption.
  - right. exists "FF". split; [reflexivity | apply alpha_default].
Qed.

Lemma alpha_outside_unit_range_returns_color_witness :
  ~ in_unit_range (JS.Finite (-1 # 2))
  /\ Colors.alpha "#20303C" (Some (JS.Finite (-1 # 2))) = "#20303C".
Proof.
  assert (H : ~ in_unit_range (JS.Finite (-1 # 2))).
  { simpl. intros [H _]. apply H. reflexivity. }
  split; [exact H |].
  exact (proj1 (alpha_outside_unit_range_returns_color "#20303C") _ H).
Defined.

(** C9, as the code has it.  For an opacity between 0 and 1, [Colors.alpha]
    returns the colour followed by exactly two hexadecimal characters, in
    upper case, whose value is [Math.round] of the binary64 product
    [opacity * 255]: the integer nearest to that product, a tie going up,
    where the product is within 2^-46 of the exact one; a value below 16 is
    written as ['0'] and one digit; with the opacity omitted the default 1
    applies and ["FF"] is appended. *)
Theorem alpha_appends_rounded_hex_byte (c : string) :
  (forall q, (0 <= q)%Q -> (q <= 1)%Q ->
     exists (x : Q) (r : Z) (s : string),
       JS.mul (JS.Finite q) (JS.Finite 255) = JS.Finite x
       /\ (q * 255 - half_ulp_255 <= x /\ x <= q * 255 + half_ulp_255)%Q
       /\ rounds_to x r
       /\ Colors.alpha c (Some (JS.Finite q)) = c ++ s
       /\ String.length s = 2%nat
       /\ all_upper_hex s = true
       /\ hex_value s = Some r
       /\ ((r < 16)%Z -> exists d, s = String "0"%char (String d EmptyString)))
  /\ Colors.alpha c None = c ++ "FF".
Proof.
  split; [| apply alpha_default].
  intros q H0 H1.
  exists (product255 q), (alpha_byte q), (alpha_suffix (alpha_byte q)).
  pose proof (alpha_suffix_ok_byte _ (rounded_alpha_byte q H0 H1)) as Hok.
  unfold alpha_suffix_ok in Hok.
  apply andb_prop in Hok as [Hok Hpad]. apply andb_prop in Hok as [Hok Hupper].
  apply andb_prop in Hok as [Hlen Hval].
  split; [apply mul_255; assumption |].
  split; [apply product255_error; assumption |].
  split; [apply Qfloor_half_rounds_to |].
  split; [apply alpha_in_range; assumption |].
  split; [apply Nat.eqb_eq; exact Hlen |].
  split; [exact Hupper |].
  split.
  { destruct (hex_value (alpha_suffix (alpha_byte q))) as [v |]; [| discriminate].
    apply Z.eqb_eq in Hval. now subst v. }
  intros Hsmall.
  apply Z.ltb_lt in Hsmall. rewrite Hsmall in Hpad.
  destruct (alpha_suffix (alpha_byte q)) as [| a [| d [| ? ?]]]; try discriminate.
  destruct (Ascii.eqb_spec a "0"%char) as [-> | Hne].
  - now exists d.
  - exfalso. destruct a as [[] [] [] [] [] [] [] []]; try discriminate Hpad.
    now apply Hne.
Qed.

Lemma alpha_appends_rounded_hex_byte_witness :
  exists (x : Q) (r : Z) (s : string),
    JS.mul (JS.Finite (1 # 2)) (JS.Finite 255) = JS.Finite x
    /\ ((1 # 2) * 255 - half_ulp_255 <= x /\ x <= (1 # 2) * 255 + half_ulp_255)%Q
    /\ rounds_to x r
    /\ Colors.alpha "#20303C" (Some (JS.Finite (1 # 2))) = "#20303C" ++ s
    /\ String.length s = 2%nat
    /\ all_upper_hex s = true
    /\ hex_value s = Some r
    /\ ((r < 16)%Z -> exists d, s = String "0"%char (String d EmptyString)).
Proof.
  apply (proj1 (alpha_appends_rounded_hex_byte "#20303C") (1 # 2)%Q).
  - vm_compute. discriminate.
  - vm_compute. discriminate.
Defined.

(** Against C9 read with lower-case digits and the exact product: the
    default opacity appends ["FF"], not ["ff"]; and at a binary64 opacity
    whose exact product with 255 is just below one half, the byte is 1,
    while the integer nearest to the exact product is 0. *)
Lemma alpha_lowercase_and_exact_rounding_refuted :
  Colors.alpha "#20303C" None <> "#20303C" ++ "ff"
  /\ (0 <= opacity_below_half_step /\ opacity_below_half_step <= 1)%Q
  /\ ~ (exists (r : Z) (s : string),
           Colors.alpha "#20303C" (Some (JS.Finite opacity_below_half_step))
           = "#20303C" ++ s
           /\ hex_value s = Some r
           /\ rounds_to (opacity_below_half_step * 255) r).
Proof.
  split; [| split].
  - rewrite alpha_default. discriminate.
  - split; vm_compute; discriminate.
  - intros (r & s & Ha & Hv & Hlo & _).
    vm_compute in Ha. injection Ha as <-.
    vm_compute in Hv. injection Hv as <-.
    vm_compute in Hlo. apply Hlo. reflexivity.
Qed.

Example alpha_half : Colors.alpha "#20303C" (Some (JS.Finite (1 # 2))) = "#20303C80".
Proof. vm_compute. reflexivity. Qed.

Example alpha_small : Colors.alpha "#20303C" (Some (JS.Finite (1 # 100))) = "#20303C03".
Proof. vm_compute. reflexivity. Qed.

Example alpha_nan : Colors.alpha "#20303C" (Some JS.NaN) = "#20303C".
Proof. reflexivity. Qed.

Example alpha_below_half_step :
  Colors.alpha "#20303C" (Some (JS.Finite opacity_below_half_step)) = "#20303C01".
Proof. vm_compute. reflexivity. Qed.

(** C10. With [n] the number of children of the card: index 0 gets the
    leading edge (left in a row, top otherwise), index [n - 1] gets the
    trailing edge (right in a row, bottom otherwise) after it, so the only
    child of a card gets both, and every other index gets the empty list. *)
Theorem calcImagePosition_edges (p : Card.Props) (childIndex : Z) :
  let n := Z.of_nat (React.Children_count (Card.children p)) in
  let first := leading_edge (Card.row p) in
  let last := trailing_edge (Card.row p) in
  (childIndex = 0%Z -> n = 1%Z -> Card.calcImagePosition p childIndex = [first; last])
  /\ (childIndex = 0%Z -> n <> 1%Z -> Card.calcImagePosition p childIndex = [first])
  /\ (childIndex <> 0%Z -> childIndex = (n - 1)%Z ->
      Card.calcImagePosition p childIndex = [last])
  /\ (childIndex <> 0%Z -> childIndex <> (n - 1)%Z ->
      Card.calcImagePosition p childIndex = []).
Proof.
  intros n first last. unfold Card.calcImagePosition; fold n.
  repeat split; intros H0 H1.
  - subst childIndex. rewrite H1. reflexivity.
  - subst childIndex. rewrite Z.eqb_refl.
    destruct (Z.eqb_spec 0 (n - 1)) as [E | _]; [exfalso; lia | reflexivity].
  - apply Z.eqb_neq in H0. rewrite H0. subst childIndex.
    rewrite Z.eqb_refl. reflexivity.
  - apply Z.eqb_neq in H0, H1. rewrite H0, H1. reflexivity.
Qed.

Lemma calcImagePosition_edges_witness :
  Card.calcImagePosition single_child_column 0 = ["top"; "bottom"]
  /\ Card.calcImagePosition three_children_row 0 = ["left"]
  /\ Card.calcImagePosition three_children_row 2 = ["right"]
  /\ Card.calcImagePosition three_children_row 1 = [].
Proof.
  split; [| split; [| split]].
  - apply (proj1 (calcImagePosition_edges single_child_column 0)); reflexivity.
  - apply (proj1 (proj2 (calcImagePosition_edges three_children_row 0)));
      [reflexivity | vm_compute; discriminate].
  - apply (proj1 (proj2 (proj2 (calcImagePosition_edges three_children_row 2))));
      [vm_compute; discriminate | reflexivity].
  - apply (proj2 (proj2 (proj2 (calcImagePosition_edges three_children_row 1))));
      vm_compute; discriminate.
Defined.

(** ** The Tour component *)

Lemma setState_targetPosition (st : Tour.State) (b : BoundingBox) :
  Tour.setState st {| Tour.targetPosition := Some b |}
  = {| Tour.targetPosition := Some b |}.
Proof. reflexivity. Qed.

Lemma onLayoutMeasured_stores (b : BoundingBox) (st : Tour.State) :
  Tour.targetPosition (onLayoutMeasured b st) = Some b.
Proof. destruct b; reflexivity. Qed.

Lemma run_app (i : instance) (evs evs' : list event) :
  run i (evs ++ evs') = run (run i evs) evs'.
Proof. apply fold_left_app. Qed.

(** A position is stored after the events exactly when it was stored before
    or one of the events delivered a measurement. *)
Lemma run_isUndefined (evs : list event) :
  forall i,
    Tour.isUndefined (Tour.targetPosition (inst_state (run i evs)))
    = negb (measured evs) && Tour.isUndefined (Tour.targetPosition (inst_state i)).
Proof.
  induction evs as [| ev evs IH]; intros i; simpl.
  - reflexivity.
  - fold (run (step i ev) evs). rewrite IH.
    destruct ev as [p | [box |]]; simpl.
    + reflexivity.
    + destruct box; simpl. rewrite andb_false_r. reflexivity.
    + reflexivity.
Qed.

Lemma run_mount_isUndefined (p : Tour.Props) (evs : list event) :
  Tour.isUndefined (Tour.targetPosition (inst_state (run (mount p) evs)))
  = negb (measured evs).
Proof. rewrite run_isUndefined. simpl. apply andb_true_r. Qed.

(** Events that only change the props leave the state alone. *)
Lemma run_props_only (ps : list Tour.Props) :
  forall i, inst_state (run i (map ReceiveProps ps)) = inst_state i.
Proof.
  induction ps as [| p ps IH]; intros i; simpl; [reflexivity |].
  fold (run (step i (ReceiveProps p)) (map ReceiveProps ps)).
  rewrite IH. reflexivity.
Qed.

Section TourFacts.

Context `{Tour.Imports}.

(** When [render] returns, the overlay is in the tree exactly when
    [shouldShowTour] holds. *)
Lemma render_overlay (p : Tour.Props) (st : Tour.State) (tree : Tour.vnode) :
  Tour.render p st = Ok tree ->
  overlay_content tree <> None <-> Tour.shouldShowTour p st = true.
Proof.
  unfold Tour.render, Tour.renderTargetClone, Tour.renderMessage.
  destruct (Tour.renderTarget p) as [target | e]; simpl; [| discriminate].
  destruct (Tour.shouldShowTour p st) eqn:Hshow; simpl.
  - destruct (Tour.targetPosition st) as [b |]; simpl; [| discriminate].
    destruct (React.Children_only (Tour.children p)); simpl; [| discriminate].
    intros [= <-]. simpl. split; [reflexivity | discriminate].
  - intros [= <-]. simpl. split; [congruence | discriminate].
Qed.

(** With one element as children and a stored position, [render] returns. *)
Lemma render_measured (p : Tour.Props) (st : Tour.State)
      (e : React.element) (b : BoundingBox) :
  Tour.children p = React.Element e ->
  Tour.targetPosition st = Some b ->
  exists tree,
    Tour.render p st = Ok tree
    /\ (Tour.visible p = true ->
        geometry_of tree
        = Some {| glow_left := JS.add (Tour.left b) (JS.Finite (-4));
                  glow_top := JS.add (Tour.top b) (JS.Finite (-4));
                  glow_insets := [JS.Finite (-4); JS.Finite (-4);
                                  JS.Finite (-4); JS.Finite (-4)];
                  clone_left := Tour.left b;
                  clone_top := Tour.top b;
                  message_bottom := Tour.height b |}).
Proof.
  intros He Hb.
  unfold Tour.render, Tour.renderTarget, Tour.renderTargetClone,
    Tour.renderMessage, Tour.shouldShowTour.
  rewrite He, Hb. simpl.
  destruct (Tour.visible p); simpl.
  - eexists. split; [reflexivity |]. intros _. reflexivity.
  - eexists. split; [reflexivity |]. discriminate.
Qed.

Lemma overlay_rendered_shouldShowTour (p : Tour.Props) (st : Tour.State)
      (e : React.element) :
  Tour.children p = React.Element e ->
  overlay_rendered (Tour.render p st) = Tour.shouldShowTour p st.
Proof.
  intros He.
  unfold Tour.render, Tour.renderTarget, Tour.renderTargetClone,
    Tour.renderMessage, Tour.shouldShowTour.
  rewrite He. simpl.
  destruct (Tour.visible p), (Tour.targetPosition st); reflexivity.
Qed.

(** When [render] returns, the modal's flag is [shouldShowTour] and the
    backdrop holds nothing exactly when the flag is off. *)
Lemma render_modal (p : Tour.Props) (st : Tour.State) (tree : Tour.vnode) :
  Tour.render p st = Ok tree ->
  modal_visible tree = Some (Tour.shouldShowTour p st)
  /\ exists content,
      backdrop_content tree = Some content
      /\ (content = Tour.Nothing <-> Tour.shouldShowTour p st = false).
Proof.
  unfold Tour.render, Tour.renderTargetClone, Tour.renderMessage.
  destruct (Tour.renderTarget p) as [target | e]; simpl; [| discriminate].
  destruct (Tour.shouldShowTour p st) eqn:Hshow; simpl.
  - destruct (Tour.targetPosition st) as [b |]; simpl; [| discriminate].
    destruct (React.Children_only (Tour.children p)); simpl; [| discriminate].
    intros [= <-]. simpl. split; [reflexivity |].
    eexists. split; [reflexivity |]. split; discriminate.
  - intros [= <-]. simpl. split; [reflexivity |].
    eexists. split; [reflexivity |]. split; reflexivity.
Qed.

Lemma overlay_rendered_false (p : Tour.Props) (st : Tour.State) :
  Tour.shouldShowTour p st = false ->
  overlay_rendered (Tour.render p st) = false.
Proof.
  intros Hshow. destruct (Tour.render p st) as [tree | ex] eqn:Hr; [| reflexivity].
  simpl. destruct (overlay_content tree) eqn:Hc; [| reflexivity].
  assert (Hne : overlay_content tree <> None) by congruence.
  apply (render_overlay p st tree Hr) in Hne. congruence.
Qed.

(** C1. After any sequence of prop changes and layout events since the
    mount, a render that returns has the modal visible, and content in its
    backdrop, exactly when the [visible] prop is true and a measurement was
    delivered before; as long as none was delivered the modal is not
    visible and its backdrop holds nothing, whatever the props, [visible]
    included. *)
Theorem overlay_iff_visible_and_measured (p0 : Tour.Props) (evs : list event) :
  let i := run (mount p0) evs in
  (forall tree,
      Tour.render (inst_props i) (inst_state i) = Ok tree ->
      (modal_visible tree = Some true
       <-> Tour.visible (inst_props i) = true /\ measured evs = true)
      /\ (modal_visible tree = Some false
          <-> ~ (Tour.visible (inst_props i) = true /\ measured evs = true))
      /\ (backdrop_content tree = Some Tour.Nothing
          <-> ~ (Tour.visible (inst_props i) = true /\ measured evs = true))
      /\ (overlay_content tree <> None
          <-> Tour.visible (inst_props i) = true /\ measured evs = true))
  /\ (measured evs = false ->
      forall p,
        overlay_rendered (Tour.render p (inst_state i)) = false
        /\ forall tree,
            Tour.render p (inst_state i) = Ok tree ->
            modal_visible tree = Some false
            /\ backdrop_content tree = Some Tour.Nothing).
Proof.
  intros i.
  assert (Hshow : forall p,
             Tour.shouldShowTour p (inst_state i)
             = Tour.visible p && measured evs).
  { intros p. unfold Tour.shouldShowTour. subst i.
    rewrite run_mount_isUndefined, negb_involutive. reflexivity. }
  split.
  - intros tree Hr.
    destruct (render_modal _ _ _ Hr) as (Hflag & content & Hback & Hnothing).
    pose proof (render_overlay _ _ _ Hr) as Hoverlay.
    rewrite Hshow in Hflag, Hnothing, Hoverlay.
    assert (Hinj : backdrop_content tree = Some Tour.Nothing
                   <-> content = Tour.Nothing)
      by (rewrite Hback; split; congruence).
    rewrite Hflag, Hinj, Hnothing.
    destruct (Tour.visible (inst_props i)), (measured evs); simpl in *;
      (split; [| split; [| split]]); try exact Hoverlay;
      intuition congruence.
  - intros Hm p. split.
    + apply overlay_rendered_false. rewrite Hshow, Hm. apply andb_false_r.
    + intros tree Hr.
      destruct (render_modal _ _ _ Hr) as (Hflag & content & Hback & Hnothing).
      rewrite Hshow, Hm, andb_false_r in Hflag, Hnothing.
      split; [exact Hflag |].
      rewrite Hback. f_equal. now apply Hnothing.
Qed.

(** C2. After one [onLayoutMeasured] with the box left=10, top=20,
    width=100, height=50 the state is Measured, and a visible tour with one
    child element renders the glow at left=6, top=16: the glow reaches 4
    units past the wrapper placed at the box's corner, on each side. *)
Theorem glow_position_after_measurement
        (p : Tour.Props) (e : React.element) (B : BoundingBox) (st : Tour.State) :
  Tour.children p = React.Element e ->
  Tour.visible p = true ->
  Tour.left B = JS.Finite 10 -> Tour.top B = JS.Finite 20 ->
  Tour.width B = JS.Finite 100 -> Tour.height B = JS.Finite 50 ->
  let st' := onLayoutMeasured B st in
  phase_of st' = Measured
  /\ exists g,
      rendered_geometry p st' = Some g
      /\ glow_left g = JS.Finite 6
      /\ glow_top g = JS.Finite 16
      /\ glow_insets g = [JS.Finite (-4); JS.Finite (-4);
                          JS.Finite (-4); JS.Finite (-4)].
Proof.
  intros He Hv Hl Ht Hw Hh st'.
  assert (Hst : Tour.targetPosition st' = Some B) by apply onLayoutMeasured_stores.
  split; [unfold phase_of; rewrite Hst; reflexivity |].
  destruct (render_measured p st' e B He Hst) as (tree & Hr & Hg).
  unfold rendered_geometry. rewrite Hr, (Hg Hv).
  eexists. split; [reflexivity |]. simpl. rewrite Hl, Ht.
  repeat split; reflexivity.
Qed.

(** C3. With a stored box, the message panel's [bottom] is the box's
    height, and two boxes of the same height give the same panel, whatever
    their top, left and width. *)
Theorem message_bottom_is_height (p : Tour.Props) :
  (forall st b,
      Tour.targetPosition st = Some b ->
      exists styles content,
        Tour.renderMessage p st = Ok (Tour.View false styles content)
        /\ style_number "bottom" styles = Some (Tour.height b))
  /\ (forall b b',
         Tour.height b = Tour.height b' ->
         Tour.renderMessage p {| Tour.targetPosition := Some b |}
         = Tour.renderMessage p {| Tour.targetPosition := Some b' |})
  /\ (forall st b e,
         Tour.targetPosition st = Some b ->
         Tour.children p = React.Element e ->
         Tour.visible p = true ->
         exists g, rendered_geometry p st = Some g
                   /\ message_bottom g = Tour.height b).
Proof.
  split; [| split].
  - intros st b Hb. unfold Tour.renderMessage. rewrite Hb.
    do 2 eexists. split; reflexivity.
  - intros b b' Hh. unfold Tour.renderMessage; simpl. rewrite Hh. reflexivity.
  - intros st b e Hb He Hv.
    destruct (render_measured p st e b He Hb) as (tree & Hr & Hg).
    unfold rendered_geometry. rewrite Hr, (Hg Hv).
    eexists. split; reflexivity.
Qed.

(** C4. A second [onLayoutMeasured] with the same box leaves the state, the
    rendered tree and the rendered geometry (glow, clone, message) as they
    were after the first; for a visible tour with one child element that
    geometry is there to compare. *)
Theorem onLayoutMeasured_idempotent
        (p : Tour.Props) (B : BoundingBox) (st : Tour.State) :
  let once := onLayoutMeasured B st in
  let twice := onLayoutMeasured B once in
  twice = once
  /\ Tour.render p twice = Tour.render p once
  /\ rendered_geometry p twice = rendered_geometry p once
  /\ (forall e, Tour.children p = React.Element e -> Tour.visible p = true ->
                rendered_geometry p once <> None).
Proof.
  intros once twice.
  assert (Heq : twice = once) by (destruct B; reflexivity).
  rewrite Heq. repeat split.
  intros e He Hv.
  destruct (render_measured p once e B He (onLayoutMeasured_stores B st))
    as (tree & Hr & Hg).
  unfold rendered_geometry. rewrite Hr, (Hg Hv). discriminate.
Qed.

(** C5. Once a measurement was delivered, turning [visible] off and on
    again keeps the stored box and shows the overlay again with no further
    layout event; across any prop changes the state stays and
    [shouldShowTour] is the current [visible]. *)
Theorem visibility_toggle_keeps_measurement (p0 : Tour.Props) (evs : list event) :
  measured evs = true ->
  let i := run (mount p0) evs in
  let p := inst_props i in
  let off := run i [ReceiveProps (set_visible false p)] in
  let on := run off [ReceiveProps (set_visible true p)] in
  inst_state on = inst_state i
  /\ overlay_rendered (Tour.render (inst_props off) (inst_state off)) = false
  /\ Tour.shouldShowTour (inst_props on) (inst_state on) = true
  /\ (forall e, Tour.children p = React.Element e ->
                overlay_rendered (Tour.render (inst_props on) (inst_state on)) = true)
  /\ (forall ps,
         let j := run i (map ReceiveProps ps) in
         inst_state j = inst_state i
         /\ Tour.shouldShowTour (inst_props j) (inst_state j)
            = Tour.visible (inst_props j)).
Proof.
  intros Hm i p off on.
  assert (Hdef : Tour.isUndefined (Tour.targetPosition (inst_state i)) = false).
  { subst i. rewrite run_mount_isUndefined, Hm. reflexivity. }
  split; [reflexivity |].
  split; [apply overlay_rendered_false; reflexivity |].
  assert (Hon : Tour.shouldShowTour (inst_props on) (inst_state on) = true).
  { unfold Tour.shouldShowTour. simpl. fold i. rewrite Hdef. reflexivity. }
  split; [exact Hon |].
  split.
  - intros e He. rewrite (overlay_rendered_shouldShowTour _ _ e); [exact Hon |].
    simpl. exact He.
  - intros ps j. subst j. rewrite run_props_only. split; [reflexivity |].
    unfold Tour.shouldShowTour. rewrite Hdef.
    apply andb_true_r.
Qed.


End TourFacts.

(** C6. [renderTarget] (the spec's attachToTarget) and [renderTargetClone]
    throw React's single-child error (the spec's InvalidChildCount) exactly
    when the [children] prop is not one React element.  For children supplied
    in JSX: none throws, two or more throw, and exactly one element succeeds
    with the clone carrying the layout hook and the ref. *)
Theorem renderTarget_requires_single_element (p : Tour.Props) :
  (Tour.renderTarget p = Throw React.InvalidChildCount
   <-> ~ exists e, Tour.children p = React.Element e)
  /\ (Tour.renderTargetClone p = Throw React.InvalidChildCount
      <-> ~ exists e, Tour.children p = React.Element e)
  /\ (forall supplied,
         Tour.children p = React.children_prop supplied ->
         (supplied = [] -> Tour.renderTarget p = Throw React.InvalidChildCount)
         /\ (2 <= List.length supplied ->
             Tour.renderTarget p = Throw React.InvalidChildCount)
         /\ (forall e, supplied = [React.Element e] ->
                       Tour.renderTarget p
                       = Ok (React.cloneElement e target_config)
                       /\ Tour.renderTargetClone p
                          = Ok (React.cloneElement e React.no_config))).
Proof.
  unfold Tour.renderTarget, Tour.renderTargetClone.
  split; [| split].
  - destruct (Tour.children p); simpl; split;
      try discriminate; try reflexivity;
      try (intros _ [e' He']; discriminate).
    intros Hn. exfalso. apply Hn. eauto.
  - destruct (Tour.children p); simpl; split;
      try discriminate; try reflexivity;
      try (intros _ [e' He']; discriminate).
    intros Hn. exfalso. apply Hn. eauto.
  - intros supplied Hc. rewrite Hc. split; [| split].
    + intros ->. reflexivity.
    + intros Hlen. destruct supplied as [| a [| b rest]]; simpl in Hlen; try lia.
      reflexivity.
    + intros e ->. split; reflexivity.
Qed.

(** ** The theorems at sample inputs *)

Lemma overlay_iff_visible_and_measured_witness :
  (let i := run (mount (sample_props false)) measured_then_shown in
   exists tree,
     @Tour.render sample_imports (inst_props i) (inst_state i) = Ok tree
     /\ (modal_visible tree = Some true
         <-> Tour.visible (inst_props i) = true
             /\ measured measured_then_shown = true)
     /\ (overlay_content tree <> None
         <-> Tour.visible (inst_props i) = true
             /\ measured measured_then_shown = true))
  /\ (let st := inst_state (run (mount (sample_props false)) never_answered) in
      exists tree,
        @Tour.render sample_imports (sample_props true) st = Ok tree
        /\ overlay_rendered (@Tour.render sample_imports (sample_props true) st)
           = false
        /\ modal_visible tree = Some false
        /\ backdrop_content tree = Some Tour.Nothing).
Proof.
  split.
  - intros i. eexists. split; [reflexivity |].
    destruct (proj1 (@overlay_iff_visible_and_measured sample_imports
                       (sample_props false) measured_then_shown) _ eq_refl)
      as (Hshown & _ & _ & Hcontent).
    split; [exact Hshown | exact Hcontent].
  - intros st. eexists. split; [reflexivity |].
    destruct (proj2 (@overlay_iff_visible_and_measured sample_imports
                       (sample_props false) never_answered)
                eq_refl (sample_props true)) as (Hhidden & Htree).
    split; [exact Hhidden |]. exact (Htree _ eq_refl).
Defined.

Lemma glow_position_after_measurement_witness :
  let st' := onLayoutMeasured box_10_20_100_50 Tour.constructor in
  phase_of st' = Measured
  /\ exists g,
      @rendered_geometry sample_imports (sample_props true) st' = Some g
      /\ glow_left g = JS.Finite 6
      /\ glow_top g = JS.Finite 16
      /\ glow_insets g = [JS.Finite (-4); JS.Finite (-4);
                          JS.Finite (-4); JS.Finite (-4)].
Proof.
  apply (@glow_position_after_measurement sample_imports (sample_props true)
           sample_target box_10_20_100_50 Tour.constructor); reflexivity.
Defined.

Lemma message_bottom_is_height_witness :
  (exists styles content,
      @Tour.renderMessage sample_imports (sample_props true)
        {| Tour.targetPosition := Some box_10_20_100_50 |}
      = Ok (Tour.View false styles content)
      /\ style_number "bottom" styles = Some (JS.Finite 50))
  /\ @Tour.renderMessage sample_imports (sample_props true)
       {| Tour.targetPosition := Some box_10_20_100_50 |}
     = @Tour.renderMessage sample_imports (sample_props true)
         {| Tour.targetPosition := Some box_0_300_40_50 |}
  /\ (exists g,
         @rendered_geometry sample_imports (sample_props true)
           {| Tour.targetPosition := Some box_0_300_40_50 |} = Some g
         /\ message_bottom g = JS.Finite 50).
Proof.
  pose proof (@message_bottom_is_height sample_imports (sample_props true))
    as (Hbottom & Hsame & Hgeometry).
  split; [| split].
  - apply (Hbottom {| Tour.targetPosition := Some box_10_20_100_50 |}
                   box_10_20_100_50). reflexivity.
  - apply Hsame. reflexivity.
  - apply (Hgeometry {| Tour.targetPosition := Some box_0_300_40_50 |}
                     box_0_300_40_50 sample_target); reflexivity.
Defined.

Lemma onLayoutMeasured_idempotent_witness :
  @rendered_geometry sample_imports (sample_props true)
    (onLayoutMeasured box_10_20_100_50 Tour.constructor) <> None.
Proof.
  apply (proj2 (proj2 (proj2
           (@onLayoutMeasured_idempotent sample_imports (sample_props true)
              box_10_20_100_50 Tour.constructor))) sample_target);
    reflexivity.
Defined.

Lemma visibility_toggle_keeps_measurement_witness :
  let i := run (mount (sample_props false)) measured_then_shown in
  let off := run i [ReceiveProps (set_visible false (inst_props i))] in
  let on := run off [ReceiveProps (set_visible true (inst_props i))] in
  inst_state on = inst_state i
  /\ overlay_rendered (@Tour.render sample_imports (inst_props off) (inst_state off))
     = false
  /\ overlay_rendered (@Tour.render sample_imports (inst_props on) (inst_state on))
     = true.
Proof.
  intros i off on.
  pose proof (@visibility_toggle_keeps_measurement sample_imports
                (sample_props false) measured_then_shown eq_refl)
    as (Hstate & Hoff & _ & Hon & _).
  split; [exact Hstate |]. split; [exact Hoff |].
  apply (Hon sample_target). reflexivity.
Defined.

Lemma renderTarget_requires_single_element_witness :
  Tour.renderTarget (sample_props_of []) = Throw React.InvalidChildCount
  /\ Tour.renderTarget
       (sample_props_of [React.Element sample_target; React.Element sample_target])
     = Throw React.InvalidChildCount
  /\ Tour.renderTarget (sample_props_of [React.Element sample_target])
     = Ok (React.cloneElement sample_target target_config)
  /\ Tour.renderTarget (sample_props_of [React.Text "Compose"])
     = Throw React.InvalidChildCount.
Proof.
  split; [| split; [| split]].
  - destruct (proj2 (proj2 (renderTarget_requires_single_element (sample_props_of [])))
                [] eq_refl) as (Hnone & _ & _).
    apply Hnone. reflexivity.
  - destruct (proj2 (proj2 (renderTarget_requires_single_element
                              (sample_props_of [React.Element sample_target;
                                                React.Element sample_target])))
                _ eq_refl) as (_ & Hmany & _).
    apply Hmany. simpl. lia.
  - destruct (proj2 (proj2 (renderTarget_requires_single_element
                              (sample_props_of [React.Element sample_target])))
                _ eq_refl) as (_ & _ & Hone).
    apply (Hone sample_target). reflexivity.
  - apply (proj1 (renderTarget_requires_single_element
                    (sample_props_of [React.Text "Compose"]))).
    intros [e He]. discriminate He.
Defined.


(* ================================================================== *)
(** * Part IV: further properties of the code                          *)
(* ================================================================== *)

(** ** Colors.alpha and the colour table *)

Lemma string_length_app (a b : string) :
  String.length (a ++ b) = (String.length a + String.length b)%nat.
Proof. induction a as [| ch a IH]; simpl; [reflexivity | now rewrite IH]. Qed.

Lemma list_ascii_of_string_app (a b : string) :
  list_ascii_of_string (a ++ b)
  = (list_ascii_of_string a ++ list_ascii_of_string b)%list.
Proof. induction a as [| ch a IH]; simpl; [reflexivity | now rewrite IH]. Qed.

Lemma string_app_inv_tail (a b s : string) : a ++ s = b ++ s -> a = b.
Proof.
  intros Heq. apply (f_equal list_ascii_of_string) in Heq.
  rewrite !list_ascii_of_string_app in Heq. apply app_inv_tail in Heq.
  apply (f_equal string_of_list_ascii) in Heq.
  now rewrite !string_of_list_ascii_of_string in Heq.
Qed.

(** The suffix of a byte is two characters that read back as the byte. *)
Lemma alpha_suffix_byte (r : Z) :
  (0 <= r <= 255)%Z ->
  String.length (alpha_suffix r) = 2%nat /\ hex_value (alpha_suffix r) = Some r.
Proof.
  intros Hr. pose proof (alpha_suffix_ok_byte r Hr) as Hok.
  unfold alpha_suffix_ok in Hok.
  apply andb_prop in Hok as [Hok _]. apply andb_prop in Hok as [Hok _].
  apply andb_prop in Hok as [Hlen Hval].
  split; [now apply Nat.eqb_eq |].
  destruct (hex_value (alpha_suffix r)) as [v |]; [| discriminate].
  apply Z.eqb_eq in Hval. now subst v.
Qed.

Lemma in_unit_range_dec (o : JS.number) : {in_unit_range o} + {~ in_unit_range o}.
Proof.
  destruct o as [| | | q]; try (right; simpl; tauto).
  destruct (Qlt_le_dec q 0) as [Hneg | H0].
  { right. simpl. intros [H _]. exact (Qlt_not_le _ _ Hneg H). }
  destruct (Qlt_le_dec 1 q) as [Hbig | H1].
  { right. simpl. intros [_ H]. exact (Qlt_not_le _ _ Hbig H). }
  left. simpl. split; assumption.
Qed.

(** X1. The result equals the colour given exactly when the opacity is
    outside the interval from 0 to 1: a valid opacity always changes the
    string. *)
Theorem alpha_unchanged_iff_out_of_range (c : string) (o : JS.number) :
  Colors.alpha c (Some o) = c <-> ~ in_unit_range o.
Proof.
  split.
  - intros Heq Hin. destruct o as [| | | q]; simpl in Hin; try contradiction.
    destruct Hin as [H0 H1].
    rewrite (alpha_in_range c q H0 H1) in Heq.
    apply (f_equal String.length) in Heq. rewrite string_length_app in Heq.
    destruct (alpha_suffix_byte _ (rounded_alpha_byte q H0 H1)) as [Hlen _].
    lia.
  - intros Hout. unfold Colors.alpha.
    now rewrite (alpha_guard_out_of_range o Hout).
Qed.

Lemma alpha_unchanged_iff_out_of_range_witness :
  Colors.alpha "#3182C8" (Some (JS.Finite (3 # 2))) = "#3182C8".
Proof.
  apply (proj2 (alpha_unchanged_iff_out_of_range "#3182C8" (JS.Finite (3 # 2)))).
  simpl. intros [_ H]. apply H. reflexivity.
Defined.

(** X2. The alpha byte grows with the opacity: of two opacities between 0
    and 1, the larger one never gets the smaller byte. *)
Theorem alpha_byte_monotone (c : string) (q1 q2 : Q) :
  (0 <= q1)%Q -> (q1 <= q2)%Q -> (q2 <= 1)%Q ->
  exists (s1 s2 : string) (r1 r2 : Z),
    Colors.alpha c (Some (JS.Finite q1)) = c ++ s1
    /\ Colors.alpha c (Some (JS.Finite q2)) = c ++ s2
    /\ hex_value s1 = Some r1
    /\ hex_value s2 = Some r2
    /\ (r1 <= r2)%Z.
Proof.
  intros H0 H12 H1.
  assert (H1' : (q1 <= 1)%Q) by (apply Qle_trans with q2; assumption).
  assert (H0' : (0 <= q2)%Q) by (apply Qle_trans with q1; assumption).
  exists (alpha_suffix (alpha_byte q1)), (alpha_suffix (alpha_byte q2)),
         (alpha_byte q1), (alpha_byte q2).
  split; [apply alpha_in_range; assumption |].
  split; [apply alpha_in_range; assumption |].
  split; [apply alpha_suffix_byte, rounded_alpha_byte; assumption |].
  split; [apply alpha_suffix_byte, rounded_alpha_byte; assumption |].
  apply alpha_byte_mono; assumption.
Qed.

Lemma alpha_byte_monotone_witness :
  exists (s1 s2 : string) (r1 r2 : Z),
    Colors.alpha "#3182C8" (Some (JS.Finite (1 # 4))) = "#3182C8" ++ s1
    /\ Colors.alpha "#3182C8" (Some (JS.Finite (3 # 4))) = "#3182C8" ++ s2
    /\ hex_value s1 = Some r1
    /\ hex_value s2 = Some r2
    /\ (r1 <= r2)%Z.
Proof.
  apply (alpha_byte_monotone "#3182C8" (1 # 4) (3 # 4));
    vm_compute; discriminate.
Defined.

(** What is checked of the quotient [k / 255] for one byte [k]. *)
Lemma byte_fraction_ok (k : Z) :
  (0 <= k <= 255)%Z ->
  exists q, JS.div (JS.Finite (inject_Z k)) (JS.Finite 255) = JS.Finite q
            /\ (0 <= q)%Q /\ (q <= 1)%Q /\ alpha_byte q = k.
Proof.
  intros Hk.
  assert (Hall : forallb
                   (fun n =>
                      match JS.div (JS.Finite (inject_Z (Z.of_nat n)))
                                   (JS.Finite 255) with
                      | JS.Finite q =>
                          Qle_bool 0 q && Qle_bool q 1
                          && (alpha_byte q =? Z.of_nat n)%Z
                      | _ => false
                      end) (seq 0 256) = true)
    by (vm_compute; reflexivity).
  rewrite forallb_forall in Hall.
  specialize (Hall (Z.to_nat k)). rewrite Z2Nat.id in Hall by lia.
  assert (Hin : In (Z.to_nat k) (seq 0 256)) by (apply in_seq; lia).
  specialize (Hall Hin).
  destruct (JS.div (JS.Finite (inject_Z k)) (JS.Finite 255)) as [| | | q];
    try discriminate.
  apply andb_prop in Hall as [Hall Hbyte]. apply andb_prop in Hall as [H0 H1].
  exists q. split; [reflexivity |].
  split; [now apply Qle_bool_iff |]. split; [now apply Qle_bool_iff |].
  now apply Z.eqb_eq.
Qed.

(** X3. Every alpha byte is reached, and exactly: for a byte [k] the
    opacity [k / 255], as the binary64 division gives it, appends the two
    hexadecimal characters of [k]. *)
Theorem alpha_reaches_every_byte (c : string) (k : Z) :
  (0 <= k <= 255)%Z ->
  exists s,
    Colors.alpha c (Some (JS.div (JS.Finite (inject_Z k)) (JS.Finite 255)))
    = c ++ s
    /\ String.length s = 2%nat
    /\ hex_value s = Some k.
Proof.
  intros Hk. destruct (byte_fraction_ok k Hk) as (q & Hq & H0 & H1 & Hbyte).
  exists (alpha_suffix k).
  rewrite Hq, (alpha_in_range c q H0 H1), Hbyte.
  split; [reflexivity |]. apply alpha_suffix_byte. exact Hk.
Qed.

Lemma alpha_reaches_every_byte_witness :
  exists s,
    Colors.alpha "#3182C8"
      (Some (JS.div (JS.Finite (inject_Z 171)) (JS.Finite 255)))
    = "#3182C8" ++ s
    /\ String.length s = 2%nat
    /\ hex_value s = Some 171%Z.
Proof. apply (alpha_reaches_every_byte "#3182C8" 171). lia. Defined.

(** X4. For a colour of the table, the result is a well-formed colour
    again: a hash sign and eight hexadecimal digits for an opacity between 0
    and 1, and the six-digit colour itself for any other. *)
Theorem palette_alpha_well_formed (name c : string) (o : JS.number) :
  In (name, c) Colors.palette ->
  (in_unit_range o -> is_hex_color 8 (Colors.alpha c (Some o)) = true)
  /\ (~ in_unit_range o -> is_hex_color 6 (Colors.alpha c (Some o)) = true).
Proof.
  intros Hin.
  assert (Hall : forallb (fun entry =>
                   is_hex_color 6 (snd entry)
                   && forallb (fun n => is_hex_color 8
                                          (snd entry ++ alpha_suffix (Z.of_nat n)))
                              (seq 0 256)) Colors.palette = true)
    by (vm_compute; reflexivity).
  rewrite forallb_forall in Hall. specialize (Hall _ Hin).
  cbv beta in Hall. cbn [snd] in Hall.
  apply andb_prop in Hall as [H6 H8]. split.
  - intros Hr. destruct o as [| | | q]; simpl in Hr; try contradiction.
    destruct Hr as [H0 H1]. rewrite (alpha_in_range c q H0 H1).
    pose proof (rounded_alpha_byte q H0 H1) as Hb.
    rewrite forallb_forall in H8.
    specialize (H8 (Z.to_nat (alpha_byte q))).
    rewrite Z2Nat.id in H8 by lia. apply H8, in_seq. lia.
  - intros Hout. unfold Colors.alpha.
    now rewrite (alpha_guard_out_of_range o Hout).
Qed.

Lemma palette_alpha_well_formed_witness :
  is_hex_color 8 (Colors.alpha "#D3EDFF" (Some (JS.Finite (9 # 10)))) = true
  /\ is_hex_color 6 (Colors.alpha "#D3EDFF" (Some JS.NaN)) = true.
Proof.
  assert (Hin : In ("blue70", "#D3EDFF") Colors.palette)
    by (vm_compute; tauto).
  split.
  - apply (proj1 (palette_alpha_well_formed "blue70" "#D3EDFF" _ Hin)).
    simpl. split; discriminate.
  - apply (proj2 (palette_alpha_well_formed "blue70" "#D3EDFF" _ Hin)).
    simpl. tauto.
Defined.

(** X5. Different colours stay different under the same opacity argument:
    the suffix depends on the opacity alone and the colour is kept in front
    of it. *)
Theorem alpha_keeps_colors_apart (c1 c2 : string) (oa : option JS.number) :
  c1 <> c2 -> Colors.alpha c1 oa <> Colors.alpha c2 oa.
Proof.
  assert (Hsome : forall o, Colors.alpha c1 (Some o) = Colors.alpha c2 (Some o)
                            -> c1 = c2).
  { intros o Heq. destruct (in_unit_range_dec o) as [Hin | Hout].
    - destruct o as [| | | q]; simpl in Hin; try contradiction.
      destruct Hin as [H0 H1].
      rewrite !(alpha_in_range _ q H0 H1) in Heq.
      exact (string_app_inv_tail _ _ _ Heq).
    - unfold Colors.alpha in Heq.
      now rewrite (alpha_guard_out_of_range o Hout) in Heq. }
  intros Hne Heq. apply Hne.
  destruct oa as [o |]; [exact (Hsome o Heq) |].
  exact (Hsome (JS.Finite 1) Heq).
Qed.

Lemma alpha_keeps_colors_apart_witness :
  Colors.alpha "#3182C8" (Some (JS.Finite (1 # 2)))
  <> Colors.alpha "#4196E0" (Some (JS.Finite (1 # 2))).
Proof. apply alpha_keeps_colors_apart. discriminate. Defined.

(** ** Card *)

Lemma calcImagePosition_form (p : Card.Props) (childIndex : Z) :
  Card.calcImagePosition p childIndex
  = ((if (childIndex =? 0)%Z then [leading_edge (Card.row p)] else [])
     ++ (if (childIndex =? Z.of_nat (React.Children_count (Card.children p)) - 1)%Z
         then [trailing_edge (Card.row p)] else []))%list.
Proof.
  unfold Card.calcImagePosition, leading_edge, trailing_edge.
  destruct (childIndex =? 0)%Z,
    (childIndex =? Z.of_nat (React.Children_count (Card.children p)) - 1)%Z;
    reflexivity.
Qed.

Lemma flat_map_all_nil {A B : Type} (f : A -> list B) (l : list A) :
  (forall x, In x l -> f x = []) -> flat_map f l = [].
Proof.
  induction l as [| x l IH]; intros Hnil; simpl; [reflexivity |].
  rewrite (Hnil x (or_introl eq_refl)), IH; [reflexivity |].
  intros y Hy. apply Hnil. now right.
Qed.

(** X6. Over the indices 0 .. n-1 of a card with at least one child, the
    positions handed out are, in order, the leading edge once and the
    trailing edge once: the two ends of the card and nothing else. *)
Theorem calcImagePosition_each_edge_once (p : Card.Props) :
  (1 <= React.Children_count (Card.children p))%nat ->
  flat_map (fun i => Card.calcImagePosition p (Z.of_nat i))
           (seq 0 (React.Children_count (Card.children p)))
  = [leading_edge (Card.row p); trailing_edge (Card.row p)].
Proof.
  intros Hn.
  assert (Hform : forall i,
             Card.calcImagePosition p (Z.of_nat i)
             = ((if (i =? 0)%nat then [leading_edge (Card.row p)] else [])
                ++ (if (S i =? React.Children_count (Card.children p))%nat
                    then [trailing_edge (Card.row p)] else []))%list).
  { intros i. rewrite calcImagePosition_form.
    replace (Z.of_nat i =? 0)%Z with (i =? 0)%nat
      by (destruct (Nat.eqb_spec i 0), (Z.eqb_spec (Z.of_nat i) 0); lia || reflexivity).
    replace (Z.of_nat i =? Z.of_nat (React.Children_count (Card.children p)) - 1)%Z
      with (S i =? React.Children_count (Card.children p))%nat; [reflexivity |].
    destruct (Nat.eqb_spec (S i) (React.Children_count (Card.children p))),
      (Z.eqb_spec (Z.of_nat i)
                  (Z.of_nat (React.Children_count (Card.children p)) - 1));
      lia || reflexivity. }
  destruct (React.Children_count (Card.children p)) as [| [| m]] eqn:Hcount;
    [lia | |].
  - cbn [seq flat_map]. rewrite (Hform 0%nat). reflexivity.
  - change (seq 0 (S (S m))) with (0%nat :: seq 1 (S m)).
    rewrite seq_S. cbn [flat_map]. rewrite flat_map_app. cbn [flat_map].
    rewrite (Hform 0%nat), (Hform (1 + m)%nat).
    rewrite flat_map_all_nil.
    + simpl. rewrite Nat.eqb_refl. reflexivity.
    + intros i Hi. apply in_seq in Hi. rewrite Hform.
      destruct (Nat.eqb_spec i 0); [lia |].
      destruct (Nat.eqb_spec (S i) (S (S m))); [lia | reflexivity].
Qed.

Lemma calcImagePosition_each_edge_once_witness :
  flat_map (fun i => Card.calcImagePosition three_children_row (Z.of_nat i))
           (seq 0 (React.Children_count (Card.children three_children_row)))
  = ["left"; "right"].
Proof.
  apply (calcImagePosition_each_edge_once three_children_row).
  vm_compute. lia.
Defined.

(** X7. A card in a row hands out only left and right, a card in a column
    only top and bottom; no marker is handed out twice to one index; and in
    a card with children an index below 0 or past the last child gets
    nothing. *)
Theorem calcImagePosition_axis_and_bounds (p : Card.Props) (childIndex : Z) :
  let n := Z.of_nat (React.Children_count (Card.children p)) in
  let position := Card.calcImagePosition p childIndex in
  (Card.row p = true ->
   forall m, In m position -> m = "left" \/ m = "right")
  /\ (Card.row p = false ->
      forall m, In m position -> m = "top" \/ m = "bottom")
  /\ NoDup position
  /\ ((1 <= n)%Z -> (childIndex < 0 \/ n <= childIndex)%Z -> position = []).
Proof.
  intros n position. subst position. rewrite calcImagePosition_form.
  fold n. unfold leading_edge, trailing_edge.
  destruct (Z.eqb_spec childIndex 0) as [E0 | N0],
           (Z.eqb_spec childIndex (n - 1)) as [E1 | N1]; cbn [app].
  all: split; [| split; [| split]].
  all: try (intros Hrow m Hm; try rewrite Hrow in Hm; simpl in Hm;
            intuition (subst; auto)).
  all: try (destruct (Card.row p); repeat constructor; simpl;
            intuition discriminate).
  all: intros Hn Hout; try lia; reflexivity.
Qed.

Lemma calcImagePosition_axis_and_bounds_witness :
  (forall m, In m (Card.calcImagePosition three_children_row 0) ->
             m = "left" \/ m = "right")
  /\ Card.calcImagePosition three_children_row 3 = [].
Proof.
  pose proof (calcImagePosition_axis_and_bounds three_children_row 0)
    as (Hrow & _ & _ & _).
  pose proof (calcImagePosition_axis_and_bounds three_children_row 3)
    as (_ & _ & _ & Hout).
  split.
  - apply Hrow. reflexivity.
  - apply Hout; vm_compute; [discriminate | right; discriminate].
Defined.

(** X8. With the shadow on, [elevationStyle] is an object whose elevation
    is the prop when that is a non-zero number and 2 otherwise, so it is
    never 0 and never NaN, while [createStyles] gives the container
    elevation 2; with the shadow off [elevationStyle] is undefined and the
    container elevation is 0. *)
Theorem elevationStyle_never_zero (br40 : JS.number) (tp : Card.ThemeProps) :
  (Card.enableShadow tp = true ->
   exists e,
     Card.elevationStyle tp = Some [("elevation", Some (React.PNumber e))]
     /\ JS.truthy e = true
     /\ (forall given, Card.elevation tp = Some given ->
                       JS.truthy given = true -> e = given)
     /\ (forall given, Card.elevation tp = Some given ->
                       JS.truthy given = false -> e = JS.Finite 2)
     /\ (Card.elevation tp = None -> e = JS.Finite 2)
     /\ lookup_prop "elevation" (Card.container (Card.createStyles br40 tp))
        = Some (Some (React.PNumber (JS.Finite 2))))
  /\ (Card.enableShadow tp = false ->
      Card.elevationStyle tp = None
      /\ lookup_prop "elevation" (Card.container (Card.createStyles br40 tp))
         = Some (Some (React.PNumber (JS.Finite 0)))).
Proof.
  unfold Card.elevationStyle, Card.createStyles, lookup_prop.
  split; intros Hshadow; rewrite Hshadow; simpl; [| split; reflexivity].
  destruct (Card.elevation tp) as [given |];
    [destruct (JS.truthy given) eqn:Ht |].
  - exists given.
    split; [reflexivity |]. split; [exact Ht |].
    split; [| split; [| split]]; try reflexivity; try discriminate.
    + intros g Hg _. now injection Hg.
    + intros g Hg Hf. injection Hg as <-. congruence.
  - exists (JS.Finite 2).
    split; [reflexivity |]. split; [reflexivity |].
    split; [| split; [| split]]; try reflexivity; try discriminate.
    intros g Hg Hg'. injection Hg as <-. congruence.
  - exists (JS.Finite 2).
    split; [reflexivity |]. split; [reflexivity |].
    split; [| split; [| split]]; try reflexivity; discriminate.
Qed.

Lemma elevationStyle_never_zero_witness :
  exists e,
    Card.elevationStyle sample_theme_props
    = Some [("elevation", Some (React.PNumber e))]
    /\ JS.truthy e = true
    /\ e = JS.Finite 2.
Proof.
  destruct (proj1 (elevationStyle_never_zero (JS.Finite 12) sample_theme_props)
              eq_refl) as (e & Hstyle & Htruthy & _ & Hzero & _).
  exists e. split; [exact Hstyle |]. split; [exact Htruthy |].
  apply (Hzero (JS.Finite 0)); reflexivity.
Defined.

Lemma lookup_set_prop_same (name : string) (v : React.prop_value)
      (o : list (string * React.prop_value)) :
  lookup_prop name (React.set_prop name v o) = Some v.
Proof.
  unfold lookup_prop. induction o as [| [k old] o IH]; simpl.
  - now rewrite String.eqb_refl.
  - destruct (String.eqb_spec k name) as [-> | Hne]; simpl.
    + now rewrite String.eqb_refl.
    + apply String.eqb_neq in Hne. rewrite Hne. exact IH.
Qed.

Lemma lookup_set_prop_other (name other : string) (v : React.prop_value)
      (o : list (string * React.prop_value)) :
  other <> name ->
  lookup_prop other (React.set_prop name v o) = lookup_prop other o.
Proof.
  intros Hne. unfold lookup_prop. induction o as [| [k old] o IH]; simpl.
  - destruct (String.eqb_spec name other); [congruence | reflexivity].
  - destruct (String.eqb_spec k name) as [-> | Hk]; simpl.
    + destruct (String.eqb_spec name other); [congruence | reflexivity].
    + destruct (String.eqb_spec k other); [reflexivity | exact IH].
Qed.

Lemma lookup_absent_key {V : Type} (name : string) (o : list (string * V)) :
  ~ In name (keys o) -> lookup_prop name o = None.
Proof.
  unfold lookup_prop, keys. induction o as [| [k v] o IH]; simpl; intros Hnot.
  - reflexivity.
  - destruct (String.eqb_spec k name) as [-> | Hne]; [tauto |].
    apply IH. tauto.
Qed.

Lemma keys_set_prop (name k : string) (v : React.prop_value)
      (o : list (string * React.prop_value)) :
  In k (keys o) -> In k (keys (React.set_prop name v o)).
Proof.
  unfold keys. induction o as [| [k0 old] o IH]; simpl; [tauto |].
  intros [<- | Hin]; destruct (String.eqb_spec k0 name); simpl; auto.
Qed.

(** Spreading an object with distinct keys: its values win, the other keys
    keep theirs. *)
Lemma lookup_spread (k : string) (entries : list (string * React.prop_value)) :
  NoDup (keys entries) ->
  forall target,
    lookup_prop k (Card.spread target (Some entries))
    = match lookup_prop k entries with
      | Some v => Some v
      | None => lookup_prop k target
      end.
Proof.
  unfold Card.spread.
  induction entries as [| [k0 v0] entries IH]; intros Hnd target; simpl.
  - reflexivity.
  - inversion Hnd as [| ? ? Hnotin Hnd']; subst.
    rewrite (IH Hnd').
    unfold lookup_prop at 3. simpl.
    destruct (String.eqb_spec k0 k) as [-> | Hne].
    + rewrite (lookup_absent_key k entries Hnotin).
      apply lookup_set_prop_same.
    + fold (lookup_prop k entries).
      destruct (lookup_prop k entries); [reflexivity |].
      apply lookup_set_prop_other. congruence.
Qed.

Lemma keys_spread (k : string) (o : option (list (string * React.prop_value))) :
  forall target, In k (keys target) -> In k (keys (Card.spread target o)).
Proof.
  destruct o as [entries |]; simpl; [| tauto].
  induction entries as [| [k0 v0] entries IH]; intros target Hin; simpl.
  - exact Hin.
  - apply IH, keys_set_prop, Hin.
Qed.

(** X9. [getBlurOptions] always has a blur type and an amount: the
    defaults light and 5 when no options are given; with options given,
    every key of the options has the value of the options and the two
    defaults stay unless the options name them. *)
Theorem getBlurOptions_defaults_and_overrides (tp : Card.ThemeProps) :
  (In "blurType" (keys (Card.getBlurOptions tp))
   /\ In "amount" (keys (Card.getBlurOptions tp)))
  /\ (Card.blurOptions tp = None ->
      Card.getBlurOptions tp
      = [("blurType", React.PString "light");
         ("amount", React.PNumber (JS.Finite 5))])
  /\ (forall given,
         Card.blurOptions tp = Some given ->
         NoDup (keys given) ->
         forall k,
           lookup_prop k (Card.getBlurOptions tp)
           = match lookup_prop k given with
             | Some v => Some v
             | None =>
                 lookup_prop k [("blurType", React.PString "light");
                                ("amount", React.PNumber (JS.Finite 5))]
             end).
Proof.
  unfold Card.getBlurOptions. split; [| split].
  - split; apply keys_spread; simpl; tauto.
  - intros ->. reflexivity.
  - intros given -> Hnd k. apply lookup_spread. exact Hnd.
Qed.

Lemma getBlurOptions_defaults_and_overrides_witness :
  lookup_prop "amount" (Card.getBlurOptions sample_theme_props)
  = Some (React.PNumber (JS.Finite 12))
  /\ lookup_prop "blurType" (Card.getBlurOptions sample_theme_props)
     = Some (React.PString "light")
  /\ lookup_prop "blurRadius" (Card.getBlurOptions sample_theme_props)
     = Some (React.PNumber (JS.Finite 3)).
Proof.
  assert (Hnd : NoDup (keys [("amount", React.PNumber (JS.Finite 12));
                             ("blurRadius", React.PNumber (JS.Finite 3))])).
  { repeat constructor; simpl; intuition discriminate. }
  pose proof (proj2 (proj2 (getBlurOptions_defaults_and_overrides
                              sample_theme_props)) _ eq_refl Hnd) as Hget.
  split; [| split].
  - exact (Hget "amount").
  - exact (Hget "blurType").
  - exact (Hget "blurRadius").
Defined.

(** ** Tour *)

(** X10. After any events, the stored position is the box of the last
    measurement delivered, and the one stored before when none was: a later
    measurement replaces an earlier one, and prop changes and unanswered
    layout hooks change nothing. *)
Theorem last_measurement_wins (evs : list event) :
  forall i,
    Tour.targetPosition (inst_state (run i evs))
    = match last_delivered evs with
      | Some box => Some box
      | None => Tour.targetPosition (inst_state i)
      end.
Proof.
  induction evs as [| ev evs IH]; intros i; [reflexivity |].
  change (run i (ev :: evs)) with (run (step i ev) evs).
  rewrite IH. simpl.
  destruct (last_delivered evs) as [box |]; [reflexivity |].
  destruct ev as [p | [box |]]; simpl; try reflexivity.
  destruct box; reflexivity.
Qed.

(** X11. Measured is absorbing: once a position is stored, no sequence of
    prop changes and layout events, answered or not, removes it. *)
Theorem measured_is_absorbing (i : instance) (evs : list event) :
  phase_of (inst_state i) = Measured ->
  phase_of (inst_state (run i evs)) = Measured.
Proof.
  unfold phase_of. intros Hm.
  pose proof (run_isUndefined evs i) as Hu.
  destruct (Tour.targetPosition (inst_state i)); [| discriminate].
  simpl in Hu. rewrite andb_false_r in Hu.
  destruct (Tour.targetPosition (inst_state (run i evs)));
    [reflexivity | discriminate].
Qed.

Lemma measured_is_absorbing_witness :
  phase_of
    (inst_state
       (run (run (mount (sample_props false)) measured_then_shown)
            never_answered))
  = Measured.
Proof. apply measured_is_absorbing. reflexivity. Defined.

Lemma cloneElement_no_config (e : React.element) :
  React.cloneElement e React.no_config = e.
Proof. destruct e; reflexivity. Qed.

(** X12. For a single child element, [renderTarget] returns the child with
    the same type and key and all its props, except that the ref becomes the
    tour's and [onLayout] becomes the tour's hook, replacing a handler the
    child had. *)
Theorem renderTarget_keeps_child_props (p : Tour.Props) (e : React.element) :
  Tour.children p = React.Element e ->
  exists target,
    Tour.renderTarget p = Ok target
    /\ React.type target = React.type e
    /\ React.key target = React.key e
    /\ React.ref target = Some "target"
    /\ lookup_prop "onLayout" (React.props target) = Some layout_hook
    /\ (forall name, name <> "onLayout" ->
                     lookup_prop name (React.props target)
                     = lookup_prop name (React.props e)).
Proof.
  intros He. unfold Tour.renderTarget. rewrite He. simpl.
  eexists. split; [reflexivity |]. simpl.
  repeat split.
  - apply lookup_set_prop_same.
  - intros name Hne. apply lookup_set_prop_other. exact Hne.
Qed.

Lemma renderTarget_keeps_child_props_witness :
  exists target,
    Tour.renderTarget (sample_props_of [React.Element sample_child_with_handler])
    = Ok target
    /\ React.type target = "Avatar"
    /\ React.key target = Some "me"
    /\ React.ref target = Some "target"
    /\ lookup_prop "onLayout" (React.props target) = Some layout_hook
    /\ lookup_prop "size" (React.props target)
       = Some (React.PNumber (JS.Finite 40)).
Proof.
  destruct (renderTarget_keeps_child_props
              (sample_props_of [React.Element sample_child_with_handler])
              sample_child_with_handler eq_refl)
    as (target & Hr & Htype & Hkey & Href & Hhook & Hothers).
  exists target. repeat split; try assumption.
  rewrite (Hothers "size"); [reflexivity | discriminate].
Defined.

Section TourStructure.

Context `{Tour.Imports}.

(** X13. Whenever [render] returns, the tree is the target in place followed
    by one transparent, fading modal over the tinted backdrop; the modal's
    [visible] is [shouldShowTour], and the backdrop has content exactly when
    the modal is visible. *)
Theorem render_shape (p : Tour.Props) (st : Tour.State) (tree : Tour.vnode) :
  Tour.render p st = Ok tree ->
  exists target content,
    Tour.renderTarget p = Ok target
    /\ tree
       = Tour.View false []
           [Tour.Child target;
            Tour.Modal (Tour.shouldShowTour p st) "fade" true
              [Tour.View true
                 [[("backgroundColor",
                    Tour.SString (Tour.Colors_rgba (Tour.overlayColor p)
                                                   (Tour.overlayOpacity p)))]]
                 [content]]]
    /\ (content = Tour.Nothing <-> Tour.shouldShowTour p st = false).
Proof.
  unfold Tour.render, Tour.renderTargetClone, Tour.renderMessage.
  destruct (Tour.renderTarget p) as [target | ex]; simpl; [| discriminate].
  destruct (Tour.shouldShowTour p st); simpl.
  - destruct (Tour.targetPosition st) as [b |]; simpl; [| discriminate].
    destruct (React.Children_only (Tour.children p)) as [clone | ex]; simpl;
      [| discriminate].
    intros [= <-]. do 2 eexists. split; [reflexivity |].
    split; [reflexivity |]. split; discriminate.
  - intros [= <-]. do 2 eexists. split; [reflexivity |].
    split; [reflexivity |]. split; reflexivity.
Qed.

(** X14. In a shown overlay the copy of the target is the child exactly as
    it was given, without the tour's ref and layout hook, between the glow
    and the message panel; only the target in place carries the hook. *)
Theorem overlay_clone_is_the_child
        (p : Tour.Props) (st : Tour.State) (e : React.element) (b : BoundingBox) :
  Tour.children p = React.Element e ->
  Tour.visible p = true ->
  Tour.targetPosition st = Some b ->
  exists tree target wrapper panel,
    Tour.render p st = Ok tree
    /\ Tour.renderTarget p = Ok target
    /\ lookup_prop "onLayout" (React.props target) = Some layout_hook
    /\ Tour.renderMessage p st = Ok panel
    /\ overlay_content tree
       = Some (Tour.View false wrapper
                 [Tour.View false [Tour.styles_glowWrapper] [];
                  Tour.Child e;
                  panel]).
Proof.
  intros He Hv Hb.
  unfold Tour.render, Tour.renderTarget, Tour.renderTargetClone,
    Tour.renderMessage, Tour.shouldShowTour.
  rewrite He, Hv, Hb. simpl. rewrite (cloneElement_no_config e).
  do 4 eexists. split; [reflexivity |]. split; [reflexivity |].
  split; [apply lookup_set_prop_same |].
  split; reflexivity.
Qed.

(** X15. For every stored box with finite coordinates, the clone sits at
    the box's corner and the glow starts 4 units to the left of it and 4
    units above it, whatever the size of the box. *)
Theorem glow_is_four_units_out
        (p : Tour.Props) (st : Tour.State) (e : React.element)
        (l t : Q) (w h : JS.number) :
  Tour.children p = React.Element e ->
  Tour.visible p = true ->
  Tour.targetPosition st
  = Some (Tour.mkTargetPosition (JS.Finite l) (JS.Finite t) w h) ->
  exists g gl gt,
    rendered_geometry p st = Some g
    /\ clone_left g = JS.Finite l
    /\ clone_top g = JS.Finite t
    /\ glow_left g = JS.Finite gl
    /\ glow_top g = JS.Finite gt
    /\ (gl == l - 4)%Q
    /\ (gt == t - 4)%Q.
Proof.
  intros He Hv Hb.
  destruct (render_measured p st e _ He Hb) as (tree & Hr & Hg).
  unfold rendered_geometry. rewrite Hr, (Hg Hv). simpl.
  do 3 eexists. split; [reflexivity |]. simpl.
  repeat split; reflexivity.
Qed.

End TourStructure.

Lemma render_shape_witness :
  exists tree target content,
    @Tour.render sample_imports (sample_props true) Tour.constructor = Ok tree
    /\ Tour.renderTarget (sample_props true) = Ok target
    /\ tree
       = Tour.View false []
           [Tour.Child target;
            Tour.Modal false "fade" true
              [Tour.View true
                 [[("backgroundColor", Tour.SString "#ffffffE6")]]
                 [content]]]
    /\ (content = Tour.Nothing
        <-> Tour.shouldShowTour (sample_props true) Tour.constructor = false).
Proof.
  destruct (@render_shape sample_imports (sample_props true) Tour.constructor
              _ eq_refl) as (target & content & Ht & Htree & Hcontent).
  eexists. exists target, content.
  split; [reflexivity |]. split; [exact Ht |]. split; [exact Htree |].
  exact Hcontent.
Defined.

Lemma overlay_clone_is_the_child_witness :
  exists tree target wrapper panel,
    @Tour.render sample_imports
      (sample_props_of [React.Element sample_child_with_handler])
      {| Tour.targetPosition := Some box_10_20_100_50 |} = Ok tree
    /\ Tour.renderTarget
         (sample_props_of [React.Element sample_child_with_handler]) = Ok target
    /\ lookup_prop "onLayout" (React.props target) = Some layout_hook
    /\ @Tour.renderMessage sample_imports
         (sample_props_of [React.Element sample_child_with_handler])
         {| Tour.targetPosition := Some box_10_20_100_50 |} = Ok panel
    /\ overlay_content tree
       = Some (Tour.View false wrapper
                 [Tour.View false [@Tour.styles_glowWrapper] [];
                  Tour.Child sample_child_with_handler;
                  panel]).
Proof.
  apply (@overlay_clone_is_the_child sample_imports
           (sample_props_of [React.Element sample_child_with_handler])
           {| Tour.targetPosition := Some box_10_20_100_50 |}
           sample_child_with_handler box_10_20_100_50); reflexivity.
Defined.

Lemma glow_is_four_units_out_witness :
  exists g gl gt,
    @rendered_geometry sample_imports (sample_props true)
      {| Tour.targetPosition := Some box_0_300_40_50 |} = Some g
    /\ clone_left g = JS.Finite 0
    /\ clone_top g = JS.Finite 300
    /\ glow_left g = JS.Finite gl
    /\ glow_top g = JS.Finite gt
    /\ (gl == 0 - 4)%Q
    /\ (gt == 300 - 4)%Q.
Proof.
  apply (@glow_is_four_units_out sample_imports (sample_props true)
           {| Tour.targetPosition := Some box_0_300_40_50 |} sample_target
           0 300 (JS.Finite 40) (JS.Finite 50)); reflexivity.
Defined.

